(** * Invoice fraud-risk evaluation and payment reconciliation

    A shallow embedding of the rule engine, the supplier risk scorer
    ([agent_fraud_detection.py]) and the payment matcher
    ([agent_reconciliation.py]), with the properties the specification
    states about them, followed by the workflow that runs them on one
    database ([orchestrator.py]) and further properties of the code.

    Conventions of the embedding.
    - A Python [float] is an exact rational ([Q]): binary64 rounding,
      infinities and NaN are not represented.  [==] on floats is [Qeq_bool],
      the order is [Qle_bool] / [Qlt_bool].
    - Text is ASCII ([string]); [str.lower], [str.strip] and the regular
      expression class [\d] are taken on ASCII characters.
    - A dictionary with a fixed set of optional keys is a record of
      [option] fields; [d.get(k)] of an absent key is [None].
    - [datetime] values are naive instants counted in microseconds ([Z]);
      [datetime.now()] reads the next value of a wall clock, a stream
      [nat -> Z] indexed by the number of readings made so far.
    - An uncaught exception is the [Raised] outcome of [pyresult]. *)

From Stdlib Require Import ZArith QArith Qabs Qround List String Ascii Bool Lia Arith.
Import ListNotations.

(* ================================================================== *)
(** * Python values and builtins *)
(* ================================================================== *)

Module Py.

(** JSON scalars as Python sees them after [json.load]. *)
Inductive pyval : Type :=
| PyNone
| PyBool (b : bool)
| PyInt (z : Z)
| PyFloat (q : Q)
| PyStr (s : string).

(** Exceptions that the modelled code can let escape. *)
Inductive pyexn : Type :=
| ZeroDivisionError
| ValueError
| TypeError.

Inductive pyresult (A : Type) : Type :=
| Returned (a : A)
| Raised (e : pyexn).

Arguments Returned {A} a.
Arguments Raised {A} e.

Definition bind {A B : Type} (m : pyresult A) (k : A -> pyresult B) : pyresult B :=
  match m with
  | Returned a => k a
  | Raised e => Raised e
  end.

(** [d.get(key)]: the value, or [None] when the key is absent. *)
Definition get (field : option pyval) : pyval :=
  match field with
  | Some v => v
  | None => PyNone
  end.

(** [d.get(key, default)] for a field of any type. *)
Definition get_or {A : Type} (field : option A) (default : A) : A :=
  match field with
  | Some v => v
  | None => default
  end.

(** ** Numbers *)

Definition Qlt_bool (x y : Q) : bool := negb (Qle_bool y x).

(** [x % m] on floats for a positive modulus: the result has the sign of
    [m], so it is [x - m * floor (x / m)]. *)
Definition py_mod (x m : Q) : Q :=
  x - m * inject_Z (Qfloor (x / m)).

(** [round(x)] with one argument: nearest integer, ties to even. *)
Definition py_round (x : Q) : Z :=
  let f := Qfloor x in
  let r := x - inject_Z f in
  if Qlt_bool r (1 # 2) then f
  else if Qlt_bool (1 # 2) r then (f + 1)%Z
  else if Z.even f then f else (f + 1)%Z.

(** [sum(xs)] over floats: left to right from the integer [0]. *)
Definition py_sum (xs : list Q) : Q := fold_left Qplus xs 0.

(** [sum(xs)] over integers. *)
Definition py_sum_int (xs : list Z) : Z := fold_left Z.add xs 0%Z.

(** [x / y] (true division) *)
Definition py_truediv (x y : Q) : pyresult Q :=
  if Qeq_bool y 0 then Raised ZeroDivisionError else Returned (x / y).

(** [statistics.mean(xs)] *)
Definition mean (xs : list Q) : Q :=
  py_sum xs / inject_Z (Z.of_nat (List.length xs)).

(** [statistics.variance(xs)]: the sample variance. *)
Definition variance (xs : list Q) : Q :=
  let m := mean xs in
  py_sum (map (fun x => (x - m) * (x - m)) xs)
  / inject_Z (Z.of_nat (List.length xs) - 1).

(** [statistics.stdev(xs) > bound].  The standard deviation is the
    non-negative square root of the variance, which the rationals do not
    have; the comparison is taken on the squares. *)
Definition stdev_exceeds (xs : list Q) (bound : Q) : bool :=
  if Qlt_bool bound 0 then true else Qlt_bool (bound * bound) (variance xs).

Fixpoint insert_sorted (t : Z) (l : list Z) : list Z :=
  match l with
  | [] => [t]
  | h :: r => if (t <=? h)%Z then t :: l else h :: insert_sorted t r
  end.

(** [l.sort()] on instants. *)
Definition sort (l : list Z) : list Z := fold_right insert_sorted [] l.

(** The float of a value accepted by [isinstance(val, (int, float))];
    [bool] is a subclass of [int]. *)
Definition number_of (v : pyval) : option Q :=
  match v with
  | PyBool b => Some (if b then 1 else 0)
  | PyInt z => Some (inject_Z z)
  | PyFloat q => Some q
  | PyNone | PyStr _ => None
  end.

(** ** Text *)

Definition is_digit (c : ascii) : bool :=
  (48 <=? nat_of_ascii c)%nat && (nat_of_ascii c <=? 57)%nat.

(** The ASCII characters that [str.strip()] removes. *)
Definition is_space (c : ascii) : bool :=
  let n := nat_of_ascii c in
  ((9 <=? n)%nat && (n <=? 13)%nat) || ((28 <=? n)%nat && (n <=? 32)%nat).

Definition lower_char (c : ascii) : ascii :=
  let n := nat_of_ascii c in
  if (65 <=? n)%nat && (n <=? 90)%nat then ascii_of_nat (n + 32) else c.

(** [s.lower()]. *)
Fixpoint lower (s : string) : string :=
  match s with
  | EmptyString => EmptyString
  | String c r => String (lower_char c) (lower r)
  end.

Fixpoint lstrip (s : list ascii) : list ascii :=
  match s with
  | c :: r => if is_space c then lstrip r else s
  | [] => []
  end.

Definition rstrip (s : list ascii) : list ascii := rev (lstrip (rev s)).

(** [s.strip()]. *)
Definition strip (s : list ascii) : list ascii := rstrip (lstrip s).

(** [s.replace(c, empty)] for a one-character [c]: every [c] is deleted. *)
Definition remove_char (c : ascii) (s : list ascii) : list ascii :=
  filter (fun x => negb (Ascii.eqb x c)) s.

(** The longest prefix of digits, and the rest. *)
Fixpoint span_digits (s : list ascii) : list ascii * list ascii :=
  match s with
  | c :: r =>
      if is_digit c
      then let '(ds, rest) := span_digits r in (c :: ds, rest)
      else ([], s)
  | [] => ([], [])
  end.

(** The rest of [s] after a leading [c], if [s] begins with [c]. *)
Definition take_char (c : ascii) (s : list ascii) : option (list ascii) :=
  match s with
  | x :: r => if Ascii.eqb x c then Some r else None
  | [] => None
  end.

(** A match of [[-]?\d+\.?\d*] anchored at the head of [s].  Every
    quantifier is greedy and none of them can make a later part fail once
    one digit has been read, so the first attempt is the match. *)
Definition match_here (s : list ascii) : option (list ascii) :=
  let '(sign, r) :=
    match take_char "-" s with
    | Some r => (["-"%char], r)
    | None => ([], s)
    end in
  match span_digits r with
  | ([], _) => None
  | (d :: ds, r1) =>
      let '(dot, r2) :=
        match take_char "." r1 with
        | Some r2 => (["."%char], r2)
        | None => ([], r1)
        end in
      Some (sign ++ (d :: ds) ++ dot ++ fst (span_digits r2))
  end.

(** [re.search(r"[-]?\d+\.?\d*", s)]: the match at the leftmost position
    that has one, as [m.group(0)]. *)
Fixpoint re_search (s : list ascii) : option (list ascii) :=
  match match_here s with
  | Some m => Some m
  | None =>
      match s with
      | [] => None
      | _ :: r => re_search r
      end
  end.

Definition digit_value (c : ascii) : Z := (Z.of_nat (nat_of_ascii c) - 48)%Z.

Definition digits_value (ds : list ascii) : Z :=
  fold_left (fun acc c => (10 * acc + digit_value c)%Z) ds 0%Z.

(** [float(t)] for a text [t] of the shape [[-]?\d+\.?\d*]; any other
    text is answered with [ValueError] here. *)
Definition float_of_token (t : list ascii) : pyresult Q :=
  let '(neg, r) :=
    match take_char "-" t with
    | Some r => (true, r)
    | None => (false, t)
    end in
  match span_digits r with
  | ([], _) => Raised ValueError
  | (d :: ds, r1) =>
      let after_dot :=
        match r1 with
        | [] => Some []
        | _ :: _ => take_char "." r1
        end in
      match after_dot with
      | None => Raised ValueError
      | Some r2 =>
          match span_digits r2 with
          | (fs, []) =>
              let magnitude :=
                inject_Z (digits_value (d :: ds))
                + (digits_value fs # Z.to_pos (10 ^ Z.of_nat (List.length fs))) in
              Returned (if neg then - magnitude else magnitude)
          | (_, _ :: _) => Raised ValueError
          end
      end
  end.

End Py.

(* ================================================================== *)
(** * The fraud agent: data *)
(* ================================================================== *)

Module Fraud.
Import Py.

(** The [timestamp] field of a stored record, by what
    [datetime.fromisoformat] makes of it: an ISO-8601 text denoting a naive
    instant, or any value on which the parser raises. *)
Inductive ts_field : Type :=
| IsoInstant (t : Z)
| NotIso.

Record line_item : Type := {
  item_total : option pyval
}.

(** An invoice as a dictionary: the candidate under analysis and every
    record of [invoices_db.json] have this shape. *)
Record invoice : Type := {
  supplier_name : option string;
  invoice_number : option string;
  total_amount : option pyval;
  vat_amount : option pyval;
  line_items : option (list line_item);
  timestamp : option ts_field;
  status : option string;
  flags : option (list string)
}.

Inductive severity : Type := low | medium | high | critical.

Inductive duplicate_type : Type := exact_duplicate | suspicious_duplicate.

(** The ['reason'] texts, by the template and the values formatted into
    it. *)
Inductive reason : Type :=
| DuplicateInvoiceNumber (invoice_num : string)
| SameSupplierAmount
| SuspiciouslyRound (amount : Q)
| RoundNumber (amount : Q)
| VelocityPattern (recent_count : nat) (supplier : string)
| TotalMismatch (expected_total total : Q).

(** A finding: the dictionary a detector builds, with the keys it may
    carry. *)
Record issue : Type := {
  i_type : option duplicate_type;
  i_detected : option bool;
  i_severity : option severity;
  i_match : option invoice;
  i_count : option nat;
  i_discrepancy : option Q;
  i_reason : option reason
}.

(** [{'detected': False}] *)
Definition not_detected : issue :=
  {| i_type := None; i_detected := Some false; i_severity := None;
     i_match := None; i_count := None; i_discrepancy := None;
     i_reason := None |}.

Definition duplicate_issue (t : duplicate_type) (s : severity)
    (existing : invoice) (r : reason) : issue :=
  {| i_type := Some t; i_detected := None; i_severity := Some s;
     i_match := Some existing; i_count := None; i_discrepancy := None;
     i_reason := Some r |}.

Definition detected_issue (s : severity) (r : reason) (count : option nat)
    (discrepancy : option Q) : issue :=
  {| i_type := None; i_detected := Some true; i_severity := Some s;
     i_match := None; i_count := count; i_discrepancy := discrepancy;
     i_reason := Some r |}.

(** [d['detected']] as a condition. *)
Definition is_detected (i : issue) : bool :=
  match i_detected i with
  | Some b => b
  | None => false
  end.

Inductive risk_level : Type := level_low | level_medium | level_high.

Record risk : Type := {
  score : Z;
  level : risk_level;
  risk_reason : option string;
  total_invoices : option nat;
  flagged_invoices : option nat
}.

Record report : Type := {
  detected_issues : list issue;
  supplier_risk : risk;
  total_issues : nat
}.

(** ** Time *)

(** The wall clock: reading number [k] of [datetime.now()]. *)
Definition Clock : Type := nat -> Z.

Definition microseconds_per_day : Z := 86400000000.

(** [delta.days] of a [timedelta] of [delta] microseconds: whole days,
    rounded towards minus infinity. *)
Definition days (delta : Z) : Z := (delta / microseconds_per_day)%Z.

Definition fromisoformat (f : ts_field) : pyresult Z :=
  match f with
  | IsoInstant t => Returned t
  | NotIso => Raised ValueError
  end.

(** ** Amount normalization *)

(** [_safe_float(val, default)] *)
Definition _safe_float (val : pyval) (default : Q) : Q :=
  match val with
  | PyNone => default
  | PyBool b => if b then 1 else 0
  | PyInt z => inject_Z z
  | PyFloat q => q
  | PyStr text =>
      let s := remove_char " "%char
                 (remove_char ","%char (strip (list_ascii_of_string text))) in
      match re_search s with
      | None => default
      | Some token =>
          match float_of_token token with
          | Returned x => x
          | Raised _ => default
          end
      end
  end.

(** [inv.get('supplier_name', '').lower() == supplier] *)
Definition same_supplier (supplier : string) (inv : invoice) : bool :=
  String.eqb (lower (get_or (supplier_name inv) EmptyString)) supplier.

(** ** The detectors *)

Section Detectors.

Variable clock : Clock.
Variable invoices_db : list invoice.

(** The body of the loop of [detect_duplicate_invoices]; the state is the
    list [duplicates] and the number of clock readings made. *)
Definition duplicate_step (supplier : string) (amount : Q)
    (invoice_num : string) (st : list issue * nat) (existing : invoice)
    : list issue * nat :=
  let '(duplicates, k) := st in
  let duplicates :=
    match invoice_number existing with
    | Some n =>
        if String.eqb n invoice_num
        then duplicates ++ [duplicate_issue exact_duplicate critical existing
                              (DuplicateInvoiceNumber invoice_num)]
        else duplicates
    | None => duplicates
    end in
  if same_supplier supplier existing then
    let existing_amount := _safe_float (get (total_amount existing)) 0 in
    if Qlt_bool (Qabs (amount - existing_amount)) (1 # 100) then
      (* the default of [get] is evaluated whether or not it is used *)
      let default := IsoInstant (clock k) in
      match fromisoformat (get_or (timestamp existing) default) with
      | Returned existing_date =>
          let current_date := clock (S k) in
          if (Z.abs (days (current_date - existing_date)) <=? 30)%Z
          then (duplicates ++ [duplicate_issue suspicious_duplicate high existing
                                 SameSupplierAmount], S (S k))
          else (duplicates, S (S k))
      | Raised _ => (duplicates, S k)
      end
    else (duplicates, k)
  else (duplicates, k).

Definition detect_duplicate_invoices (inv : invoice) (k : nat)
    : list issue * nat :=
  let supplier := lower (get_or (supplier_name inv) EmptyString) in
  let amount := _safe_float (get (total_amount inv)) 0 in
  let invoice_num := get_or (invoice_number inv) EmptyString in
  fold_left (duplicate_step supplier amount invoice_num) invoices_db ([], k).

Definition detect_round_number_fraud (inv : invoice) : issue :=
  let amount := _safe_float (get (total_amount inv)) 0 in
  if Qlt_bool 1000 amount && Qeq_bool (py_mod amount 1000) 0 then
    detected_issue medium (SuspiciouslyRound amount) None None
  else if Qlt_bool 100 amount && Qeq_bool (py_mod amount 100) 0
          && Qlt_bool amount 1000 then
    detected_issue low (RoundNumber amount) None None
  else not_detected.

(** The body of the loop of [detect_velocity_attack]; the state is
    [recent_count] and the number of clock readings made. *)
Definition velocity_step (supplier : string) (st : nat * nat)
    (existing : invoice) : nat * nat :=
  let '(recent_count, k) := st in
  if same_supplier supplier existing then
    let default := IsoInstant (clock k) in
    match fromisoformat (get_or (timestamp existing) default) with
    | Returned existing_date =>
        if (days (clock (S k) - existing_date) <=? 7)%Z
        then (S recent_count, S (S k))
        else (recent_count, S (S k))
    | Raised _ => (recent_count, S k)
    end
  else (recent_count, k).

Definition detect_velocity_attack (inv : invoice) (k : nat) : issue * nat :=
  let supplier := lower (get_or (supplier_name inv) EmptyString) in
  let '(recent_count, k) :=
    fold_left (velocity_step supplier) invoices_db (0%nat, k) in
  if (5 <=? recent_count)%nat then
    (detected_issue high (VelocityPattern recent_count supplier)
       (Some recent_count) None, k)
  else (not_detected, k).

Definition detect_calculation_anomalies (inv : invoice) : issue :=
  let items := get_or (line_items inv) [] in
  let total := _safe_float (get (total_amount inv)) 0 in
  let vat := _safe_float (get (vat_amount inv)) 0 in
  match items with
  | [] => not_detected
  | _ :: _ =>
      let calculated_subtotal :=
        py_sum (map (fun item => _safe_float (get (item_total item)) 0) items) in
      let expected_total := calculated_subtotal + vat in
      if Qlt_bool 1 (Qabs (total - expected_total)) then
        detected_issue high (TotalMismatch expected_total total) None
          (Some (total - expected_total))
      else not_detected
  end.

(** ** The risk scorer *)

(** [inv.get('flags', [])] as a condition. *)
Definition has_flags (inv : invoice) : bool :=
  match get_or (flags inv) [] with
  | [] => false
  | _ :: _ => true
  end.

(** The loop that collects [dates]: a record whose timestamp is absent
    or does not parse is passed over. *)
Definition date_step (dates : list Z) (inv : invoice) : list Z :=
  match timestamp inv with
  | None => dates
  | Some f =>
      match fromisoformat f with
      | Returned d => dates ++ [d]
      | Raised _ => dates
      end
  end.

(** [[(dates[i+1] - dates[i]).days for i in range(len(dates)-1)]] *)
Fixpoint day_gaps (dates : list Z) : list Z :=
  match dates with
  | a :: r =>
      match r with
      | b :: _ => days (b - a) :: day_gaps r
      | [] => []
      end
  | [] => []
  end.

Definition calculate_risk_score (name : string) : pyresult risk :=
  let supplier := lower name in
  let supplier_invoices := filter (same_supplier supplier) invoices_db in
  match supplier_invoices with
  | [] =>
      Returned {| score := 50; level := level_medium;
                  risk_reason := Some "New supplier - no historical data"%string;
                  total_invoices := None; flagged_invoices := None |}
  | _ :: _ =>
      let n := List.length supplier_invoices in
      let risk_factors := 0%nat in
      let total_factors := 0%nat in
      (* Factor 1: number of flagged invoices *)
      let flagged := List.length (filter has_flags supplier_invoices) in
      let total_factors := S total_factors in
      let risk_factors :=
        if Qlt_bool (inject_Z (Z.of_nat n) * (3 # 10)) (inject_Z (Z.of_nat flagged))
        then S risk_factors else risk_factors in
      (* Factor 2: amount variance *)
      let amounts :=
        map (fun inv => _safe_float (get (total_amount inv)) 0) supplier_invoices in
      let '(risk_factors, total_factors) :=
        if (1 <? List.length amounts)%nat then
          let avg := mean amounts in
          (if stdev_exceeds amounts (avg * (1 # 2))
           then S risk_factors else risk_factors,
           S total_factors)
        else (risk_factors, total_factors) in
      (* Factor 3: invoice frequency *)
      let total_factors := S total_factors in
      bind
        (if (10 <? n)%nat then
           match fold_left date_step supplier_invoices [] with
           | [] => Returned risk_factors
           | (_ :: _) as dates =>
               let dates := sort dates in
               bind
                 (py_truediv (inject_Z (py_sum_int (day_gaps dates)))
                    (inject_Z (Z.of_nat (List.length dates) - 1)))
                 (fun avg_days_between =>
                    Returned (if Qlt_bool avg_days_between 3
                              then S risk_factors else risk_factors))
           end
         else Returned risk_factors)
        (fun risk_factors =>
           let risk_score :=
             if (0 <? total_factors)%nat
             then inject_Z (Z.of_nat risk_factors)
                  / inject_Z (Z.of_nat total_factors) * 100
             else 50 in
           let level :=
             if Qlt_bool risk_score 30 then level_low
             else if Qlt_bool risk_score 60 then level_medium
             else level_high in
           Returned {| score := py_round risk_score; level := level;
                       risk_reason := None;
                       total_invoices := Some n;
                       flagged_invoices := Some flagged |})
  end.

(** ** The analysis *)

(** [analyze_invoice], from the four checks to the report; the advisory
    call to the language model adds nothing to [detected_issues]. *)
Definition analyze_invoice (inv : invoice) (k : nat) : pyresult report :=
  let issues := [] in
  let '(duplicates, k) := detect_duplicate_invoices inv k in
  let issues :=
    match duplicates with
    | [] => issues
    | _ :: _ => issues ++ duplicates
    end in
  let round_fraud := detect_round_number_fraud inv in
  let issues :=
    if is_detected round_fraud then issues ++ [round_fraud] else issues in
  let '(velocity, k) := detect_velocity_attack inv k in
  let issues :=
    if is_detected velocity then issues ++ [velocity] else issues in
  let calc_error := detect_calculation_anomalies inv in
  let issues :=
    if is_detected calc_error then issues ++ [calc_error] else issues in
  bind (calculate_risk_score (get_or (supplier_name inv) EmptyString))
    (fun risk =>
       Returned {| detected_issues := issues; supplier_risk := risk;
                   total_issues := List.length issues |}).

End Detectors.

End Fraud.

(* ================================================================== *)
(** * The reconciliation agent *)
(* ================================================================== *)

Module Reconciliation.
Import Py.
Import Fraud.

(** A payment event; the matcher reads ['value'] and carries the whole
    event into its result. *)
Record payment : Type := {
  tx_hash : string;
  value : pyval;
  block_number : Z
}.

Inductive match_type : Type := exact | partial.

(** The dictionary that [match_payment_to_invoice] returns. *)
Record match_result : Type := {
  matched : bool;
  m_invoice : option invoice;
  m_payment : payment;
  m_match_type : option match_type;
  difference : option Q;
  paid_percentage : option Q;
  m_reason : option string
}.

Definition default_tolerance : Q := 1 # 100.

(** [load_pending_invoices]: the records of the database whose status is
    ['pending']. *)
Definition load_pending_invoices (data : list invoice) : list invoice :=
  filter (fun inv =>
            match status inv with
            | Some s => String.eqb s "pending"
            | None => false
            end) data.

Section Matcher.

(** [float(text)] as Python parses a text; the matcher applies it to
    whatever the record holds. *)
Variable float_of_str : string -> pyresult Q.

(** [float(v)] *)
Definition py_float (v : pyval) : pyresult Q :=
  match v with
  | PyNone => Raised TypeError
  | PyBool b => Returned (if b then 1 else 0)
  | PyInt z => Returned (inject_Z z)
  | PyFloat q => Returned q
  | PyStr s => float_of_str s
  end.

(** The [for] loop of [match_payment_to_invoice] with its final
    [return]. *)
Fixpoint scan_pending (pay : payment) (payment_amount tolerance : Q)
    (pending : list invoice) : pyresult match_result :=
  match pending with
  | [] =>
      Returned {| matched := false; m_invoice := None; m_payment := pay;
                  m_match_type := None; difference := None;
                  paid_percentage := None;
                  m_reason := Some "No matching invoice found"%string |}
  | inv :: rest =>
      bind (py_float (get_or (total_amount inv) (PyInt 0)))
        (fun invoice_total =>
           if Qle_bool (Qabs (payment_amount - invoice_total)) tolerance then
             Returned {| matched := true; m_invoice := Some inv;
                         m_payment := pay; m_match_type := Some exact;
                         difference := Some 0; paid_percentage := None;
                         m_reason := None |}
           else if Qlt_bool payment_amount invoice_total
                   && Qlt_bool 0 payment_amount then
             Returned {| matched := true; m_invoice := Some inv;
                         m_payment := pay; m_match_type := Some partial;
                         difference := Some (invoice_total - payment_amount);
                         paid_percentage :=
                           Some (payment_amount / invoice_total * 100);
                         m_reason := None |}
           else scan_pending pay payment_amount tolerance rest)
  end.

Definition match_payment_to_invoice (pending_invoices : list invoice)
    (pay : payment) (tolerance : Q) : pyresult match_result :=
  bind (py_float (value pay))
    (fun payment_amount =>
       scan_pending pay payment_amount tolerance pending_invoices).

(** Step 3 of [reconcile_payments]: the loop over the payments, which
    appends one result to [matches] at each turn. *)
Fixpoint match_payments (pending_invoices : list invoice)
    (payments : list payment) (matches : list match_result)
    : pyresult (list match_result) :=
  match payments with
  | [] => Returned matches
  | pay :: rest =>
      bind (match_payment_to_invoice pending_invoices pay default_tolerance)
        (fun m => match_payments pending_invoices rest (matches ++ [m]))
  end.

(** [reconcile_payments]; [data] is the content of the database and
    [observed] is what [monitor_wallet] answers when it is asked. *)
Definition reconcile_payments (data : list invoice) (observed : list payment)
    : pyresult (list match_result) :=
  match load_pending_invoices data with
  | [] => Returned []
  | (_ :: _) as pending_invoices =>
      match observed with
      | [] => Returned []
      | (_ :: _) as payments => match_payments pending_invoices payments []
      end
  end.

End Matcher.

End Reconciliation.

(* ================================================================== *)
(** * The advisory call *)
(* ================================================================== *)

Module Advisory.
Import Py.

(** [s.startswith(prefix)] *)
Fixpoint startswith (prefix s : list ascii) : bool :=
  match prefix with
  | [] => true
  | p :: ps =>
      match s with
      | c :: r => Ascii.eqb c p && startswith ps r
      | [] => false
      end
  end.

(** [s.endswith(suffix)] *)
Definition endswith (suffix s : list ascii) : bool :=
  startswith (rev suffix) (rev s).

(** Three backticks, and the same followed by [json]. *)
Definition fence : list ascii := ["`"; "`"; "`"]%char.

Definition json_fence : list ascii := fence ++ ["j"; "s"; "o"; "n"]%char.

(** The lines of [analyze_with_ai] that clean the answer of the language
    model before [json.loads] reads it. *)
Definition clean_response (text : list ascii) : list ascii :=
  let result := strip text in
  let result := if startswith json_fence result then skipn 7 result else result in
  let result := if startswith fence result then skipn 3 result else result in
  let result :=
    if endswith fence result
    then firstn (List.length result - 3) result else result in
  strip result.

(** The advice, by the two keys that classify it; the indicators and
    the explanation are left out. *)
Record advice : Type := {
  fraud_probability : option string;
  recommended_action : option string
}.

(** [analyze_with_ai]: [response] is the text of the answer of the
    language model, or the exception of the call; [loads] is [json.loads]
    on the cleaned text, read as a dictionary.  Any exception is answered
    with the fallback advice. *)
Definition analyze_with_ai (response : pyresult (list ascii))
    (loads : list ascii -> pyresult advice) : advice :=
  let fallback := {| fraud_probability := Some "unknown"%string;
                     recommended_action := Some "review"%string |} in
  match response with
  | Returned text =>
      match loads (clean_response text) with
      | Returned a => a
      | Raised _ => fallback
      end
  | Raised _ => fallback
  end.

End Advisory.

(* ================================================================== *)
(** * The orchestrator *)
(* ================================================================== *)

Module Orchestrator.
Import Py.
Import Fraud.
Import Advisory.

(** What [InvoiceAgent.process_invoice] hands over, with the keys that
    the orchestrator reads: the extracted analysis, the time of the
    verification, and the status, which the verification does not set. *)
Record verification : Type := {
  analysis : invoice;
  verified_at : Z;
  result_status : option string
}.

(** [a == b] on two values that are a text or [None]. *)
Definition same_number (a b : option string) : bool :=
  match a, b with
  | Some x, Some y => String.eqb x y
  | None, None => true
  | _, _ => false
  end.

(** The record that [save_to_database] appends.  It carries every key;
    a key that the analysis lacks is written as null, which the amount
    keeps and which the text fields of the record type hold as an absent
    value.  The keys that no agent reads afterwards (the currency, the
    date and the two hashes) are left out. *)
Definition database_record (result : verification) : invoice :=
  {| supplier_name := supplier_name (analysis result);
     invoice_number := invoice_number (analysis result);
     total_amount := Some (get (total_amount (analysis result)));
     vat_amount := None;
     line_items := None;
     timestamp := Some (IsoInstant (verified_at result));
     status := Some (get_or (result_status result) "pending"%string);
     flags := Some [] |}.

Definition save_to_database (db : list invoice) (result : verification)
    : list invoice :=
  db ++ [database_record result].

Section Workflow.

(** The text of a ['reason']. *)
Variable render : reason -> string.

Variable clock : Clock.

(** [[issue.get('reason', 'Unknown issue') for issue in detected_issues]] *)
Definition reasons_of (fraud_analysis : report) : list string :=
  map (fun i => match i_reason i with
                | Some r => render r
                | None => "Unknown issue"%string
                end) (detected_issues fraud_analysis).

(** The assignments of [update_database] to the record it has found. *)
Definition updated (record : invoice) (new_status : option string)
    (fraud_analysis : option report) : invoice :=
  {| supplier_name := supplier_name record;
     invoice_number := invoice_number record;
     total_amount := total_amount record;
     vat_amount := vat_amount record;
     line_items := line_items record;
     timestamp := timestamp record;
     status := new_status;
     flags := match fraud_analysis with
              | Some fa => Some (reasons_of fa)
              | None => flags record
              end |}.

(** The loop of [update_database], which stops at the first record that
    carries the invoice number.  The records are those that
    [save_to_database] writes: each carries the key [invoice_number]. *)
Fixpoint update_database (db : list invoice) (invoice_num : option string)
    (new_status : option string) (fraud_analysis : option report)
    : list invoice :=
  match db with
  | [] => []
  | record :: rest =>
      if same_number (invoice_number record) invoice_num
      then updated record new_status fraud_analysis :: rest
      else record :: update_database rest invoice_num new_status fraud_analysis
  end.

(** [process_invoice_full_workflow] from the verified invoice on: the
    database when the function ends or fails, and the status it has given
    to the invoice.  [ai_analysis] is the advice that the fraud report
    carries.  The analysis names its supplier: without a name the saved
    record holds null, on which the detectors fail, and which the record
    type does not hold. *)
Definition process_invoice_full_workflow (db : list invoice)
    (result : verification) (ai_analysis : advice) (k : nat)
    : list invoice * pyresult string :=
  let db := save_to_database db result in
  match analyze_invoice clock db (analysis result) k with
  | Raised e => (db, Raised e)
  | Returned fraud_report =>
      let invoice_num := invoice_number (analysis result) in
      if match recommended_action ai_analysis with
         | Some a => String.eqb a "reject"
         | None => false
         end
      then
        (update_database db invoice_num (Some "rejected"%string)
           (Some fraud_report),
         Returned "rejected"%string)
      else
        let new_status :=
          if (0 <? List.length (detected_issues fraud_report))%nat
          then "pending_review"%string else "approved"%string in
        (update_database db invoice_num (Some new_status) (Some fraud_report),
         Returned new_status)
  end.

End Workflow.

End Orchestrator.

(* ================================================================== *)
(** * Vocabulary of the specification *)
(* ================================================================== *)

Import Py.
Import Fraud.
Import Reconciliation.

(** The normalized amount of an invoice. *)
Definition invoice_amount (inv : invoice) : Q :=
  _safe_float (get (total_amount inv)) 0.




(** [a] is an exact multiple of [m]. *)
Definition multiple_of (m : Z) (a : Q) : Prop :=
  exists k : Z, a == inject_Z (k * m).

(** ** Amount normalization *)









(** The supplier of the candidate as the detectors compare it. *)
Definition candidate_supplier (inv : invoice) : string :=
  lower (get_or (supplier_name inv) EmptyString).

(** ** Duplicates *)

Definition is_exact_duplicate (i : issue) : bool :=
  match i_type i with
  | Some exact_duplicate => true
  | _ => false
  end.

(** The record carries the invoice number [invoice_num]. *)
Definition same_invoice_number (invoice_num : string) (existing : invoice) : bool :=
  match invoice_number existing with
  | Some n => String.eqb n invoice_num
  | None => false
  end.

Definition exact_duplicate_finding (invoice_num : string) (existing : invoice)
    : issue :=
  duplicate_issue exact_duplicate critical existing
    (DuplicateInvoiceNumber invoice_num).

Definition suspicious_duplicate_finding (existing : invoice) : issue :=
  duplicate_issue suspicious_duplicate high existing SameSupplierAmount.


(** ** The wall clock *)



(** ** Velocity *)


(** [recent_count] when the loop of the velocity detector ends. *)
Definition velocity_recent_count (clock : Clock) (db : list invoice)
    (inv : invoice) (k : nat) : nat :=
  fst (fold_left (velocity_step clock (candidate_supplier inv)) db (0%nat, k)).





(** ** Risk factors *)

(** The records of the supplier, compared without case. *)
Definition supplier_records (name : string) (db : list invoice) : list invoice :=
  filter (same_supplier (lower name)) db.
















(** ** Matching *)

(** The total of a pending invoice when the record holds a number, or
    holds nothing (the matcher then takes 0). *)
Definition numeric_amount (inv : invoice) : option Q :=
  match total_amount inv with
  | None => Some 0
  | Some v => number_of v
  end.

(** The two rules of the matcher, for a payment of [p] against a total of
    [t]. *)
Definition exact_rule (p t tolerance : Q) : Prop := Qabs (p - t) <= tolerance.

Definition partial_rule (p t : Q) : Prop := 0 < p /\ p < t.

Definition exact_result (inv : invoice) (pay : payment) : match_result :=
  {| matched := true; m_invoice := Some inv; m_payment := pay;
     m_match_type := Some exact; difference := Some 0;
     paid_percentage := None; m_reason := None |}.

Definition partial_result (inv : invoice) (pay : payment) (p t : Q)
    : match_result :=
  {| matched := true; m_invoice := Some inv; m_payment := pay;
     m_match_type := Some partial; difference := Some (t - p);
     paid_percentage := Some (p / t * 100); m_reason := None |}.

Definition unmatched_result (pay : payment) : match_result :=
  {| matched := false; m_invoice := None; m_payment := pay;
     m_match_type := None; difference := None; paid_percentage := None;
     m_reason := Some "No matching invoice found"%string |}.

(** The invoice holds a numeric total that satisfies neither rule. *)
Definition passed_over (p tolerance : Q) (e : invoice) : Prop :=
  exists u, numeric_amount e = Some u /\
            ~ exact_rule p u tolerance /\ ~ partial_rule p u.

(** The invoice holds a numeric total, or none. *)
Definition has_numeric_amount (e : invoice) : Prop :=
  exists u, numeric_amount e = Some u.

(** The invoice holds a numeric total that the payment does not pay in
    part. *)
Definition without_partial (p : Q) (e : invoice) : Prop :=
  exists u, numeric_amount e = Some u /\ ~ partial_rule p u.

(** ** Sample data *)

(** A [float] that rejects every text. *)
Definition no_text_float : string -> pyresult Q := fun _ => Raised ValueError.

Definition payment_of (v : Q) : payment :=
  {| tx_hash := "0xmock123abc"; value := PyFloat v; block_number := 12345678 |}.

Definition sample_now : Z := 1700000000000000.


(** A clock that stands still, and one that advances by a microsecond at
    each reading. *)
Definition still_clock : Clock := fun _ => sample_now.


(** A stored record as the orchestrator writes it. *)
Definition stored (supplier number : string) (amount : pyval)
    (ts : option ts_field) : invoice :=
  {| supplier_name := Some supplier; invoice_number := Some number;
     total_amount := Some amount; vat_amount := None; line_items := None;
     timestamp := ts; status := Some "pending"%string; flags := Some [] |}.

(** A candidate invoice. *)
Definition candidate (supplier number : string) (amount : pyval)
    (vat : option pyval) (items : option (list line_item)) : invoice :=
  {| supplier_name := Some supplier; invoice_number := Some number;
     total_amount := Some amount; vat_amount := vat; line_items := items;
     timestamp := None; status := None; flags := None |}.

Definition acme_candidate : invoice :=
  candidate "ACME Ltd" "INV-9" (PyInt 480) None None.

Definition a_day_ago : option ts_field :=
  Some (IsoInstant (sample_now - microseconds_per_day)).


(** Four records of one supplier written yesterday. *)
Definition four_recent : list invoice :=
  [ stored "Acme Ltd" "INV-1" (PyInt 120) a_day_ago;
    stored "acme ltd" "INV-2" (PyInt 75) a_day_ago;
    stored "ACME LTD" "INV-3" (PyInt 310) a_day_ago;
    stored "Acme Ltd" "INV-4" (PyInt 45) a_day_ago ].



(** A record without timestamp, of the candidate's supplier and amount. *)
Definition undated_record : invoice :=
  stored "Acme Ltd" "INV-7" (PyStr "480.00") None.

Definition half_day : Z := 43200000000.

Definition a_month_ago : Z := (sample_now - 30 * microseconds_per_day)%Z.

(** A record of amount 100 written [h] half days after [a_month_ago]. *)
Definition dated (number : string) (h : Z) : invoice :=
  stored "Acme Ltd" number (PyInt 100)
    (Some (IsoInstant (a_month_ago + h * half_day))).

(** Eleven records of one supplier, of equal amounts and without flags,
    written alternately two and a half and three and a half days apart. *)
Definition gapped_store : list invoice :=
  [ dated "INV-01" 0; dated "INV-02" 5; dated "INV-03" 12; dated "INV-04" 17;
    dated "INV-05" 24; dated "INV-06" 29; dated "INV-07" 36; dated "INV-08" 41;
    dated "INV-09" 48; dated "INV-10" 53; dated "INV-11" 60 ].

(** Eleven records of one supplier of which one carries a timestamp. *)
Definition one_dated_store : list invoice :=
  stored "Acme Ltd" "INV-00" (PyInt 100) a_day_ago
  :: map (fun number => stored "Acme Ltd" number (PyInt 100) None)
       [ "INV-01"; "INV-02"; "INV-03"; "INV-04"; "INV-05";
         "INV-06"; "INV-07"; "INV-08"; "INV-09"; "INV-10" ]%string.

(** A candidate of the given amount, VAT and line item totals. *)
Definition billed (amount : Q) (vat : Q) (items : list Q) : invoice :=
  candidate "Acme Ltd" "INV-9" (PyFloat amount) (Some (PyFloat vat))
    (Some (map (fun t => {| item_total := Some (PyFloat t) |}) items)).

(** A pending invoice of 100. *)
Definition pending_100 : invoice :=
  stored "Acme Ltd" "INV-1" (PyInt 100) a_day_ago.


(* ================================================================== *)
(** * Vocabulary of the further properties *)
(* ================================================================== *)

Import Advisory.
Import Orchestrator.

(** ** Findings *)



(** The timestamp is absent or parses. *)
Definition readable_timestamp (e : invoice) : bool :=
  match timestamp e with
  | Some NotIso => false
  | _ => true
  end.

(** The findings of the four checks in the order in which
    [analyze_invoice] collects them; the velocity detector starts at the
    clock reading at which the duplicate detector has stopped. *)
Definition rule_findings (clock : Clock) (db : list invoice) (inv : invoice)
    (k : nat) : list issue :=
  fst (detect_duplicate_invoices clock db inv k)
  ++ filter is_detected
       [ detect_round_number_fraud inv;
         fst (detect_velocity_attack clock db inv
                (snd (detect_duplicate_invoices clock db inv k)));
         detect_calculation_anomalies inv ].


(** No record of the store carries the invoice number. *)
Definition unused_number (invoice_num : string) (db : list invoice) : Prop :=
  Forall (fun e => same_invoice_number invoice_num e = false) db.

(** ** Reconciliation *)

(** The report that [reconcile_payments] writes before it returns. *)
Record reconciliation_report : Type := {
  total_payments : nat;
  matched_payments : nat;
  unmatched_payments : nat;
  matches : list match_result
}.

Definition report_of (payments : list payment) (results : list match_result)
    : reconciliation_report :=
  {| total_payments := List.length payments;
     matched_payments := List.length (filter matched results);
     unmatched_payments :=
       List.length (filter (fun m => negb (matched m)) results);
     matches := results |}.

(** What a result says about the payment and the invoice it names: the
    amounts [p] and [t] that [float] has read, and the rule that holds
    between them. *)
Definition sound_match (float_of_str : string -> pyresult Q)
    (pending : list invoice) (pay : payment) (tolerance : Q)
    (m : match_result) : Prop :=
  m_payment m = pay /\
  if matched m then
    exists inv p t,
      m_invoice m = Some inv /\ In inv pending /\
      py_float float_of_str (value pay) = Returned p /\
      py_float float_of_str (get_or (total_amount inv) (PyInt 0)) = Returned t /\
      ((m = exact_result inv pay /\ exact_rule p t tolerance) \/
       (m = partial_result inv pay p t /\ partial_rule p t /\
        0 < t - p /\ 0 < p / t * 100 /\ p / t * 100 < 100))
  else m = unmatched_result pay.

(** ** The answer of the language model *)

(** Every character is one that [strip] removes. *)
Definition blank (w : list ascii) : Prop := Forall (fun c => is_space c = true) w.

(** Neither white space nor a backtick. *)
Definition plain (c : ascii) : bool :=
  negb (is_space c) && negb (Ascii.eqb c "`").

(** The text is empty, or begins and ends with a character that
    satisfies [ok]. *)
Definition ends_with (ok : ascii -> bool) (s : list ascii) : Prop :=
  match s with
  | [] => True
  | c :: _ => ok c = true
  end /\
  match rev s with
  | [] => True
  | c :: _ => ok c = true
  end.

Definition plain_ends (body : list ascii) : Prop := ends_with plain body.

Definition json_word : list ascii := ["j"; "s"; "o"; "n"]%char.

(** The call to the language model raises, or its answer does not
    load. *)
Definition advice_fails (response : pyresult (list ascii))
    (loads : list ascii -> pyresult advice) : Prop :=
  match response with
  | Returned text =>
      match loads (clean_response text) with
      | Returned _ => False
      | Raised _ => True
      end
  | Raised _ => True
  end.

(** ** The workflow *)

(** No clock reading is earlier than [t], or 31 days or more after it. *)
Definition within_a_month (clock : Clock) (t : Z) : Prop :=
  forall i, (0 <= clock i - t < 31 * microseconds_per_day)%Z.

(** No clock reading is earlier than [t], or 8 days or more after it. *)
Definition within_a_week (clock : Clock) (t : Z) : Prop :=
  forall i, (0 <= clock i - t < 8 * microseconds_per_day)%Z.

(** The record carries another invoice number than [invoice_num]. *)
Definition other_number (invoice_num : option string) (record : invoice) : Prop :=
  same_number (invoice_number record) invoice_num = false.

(** The status that [process_invoice_full_workflow] settles on. *)
Definition settled_status (ai_analysis : advice) (fraud_report : report) : string :=
  if match recommended_action ai_analysis with
     | Some a => String.eqb a "reject"
     | None => false
     end
  then "rejected"%string
  else if (0 <? List.length (detected_issues fraud_report))%nat
       then "pending_review"%string else "approved"%string.

(** ** Further sample data *)

(** A title for each kind of reason. *)
Definition reason_title (r : reason) : string :=
  match r with
  | DuplicateInvoiceNumber _ => "Duplicate invoice number"
  | SameSupplierAmount => "Same supplier + amount within 30 days"
  | SuspiciouslyRound _ => "Suspiciously round amount"
  | RoundNumber _ => "Round number"
  | VelocityPattern _ _ => "Velocity attack pattern"
  | TotalMismatch _ _ => "Total mismatch"
  end.

(** The verification of [acme_candidate] at [sample_now]. *)
Definition acme_verification : verification :=
  {| analysis := acme_candidate; verified_at := sample_now;
     result_status := None |}.

(** The advice when the language model cannot be reached. *)
Definition no_advice : advice :=
  analyze_with_ai (Raised ValueError) (fun _ => Raised ValueError).

(** A record of another supplier. *)
Definition globex_record : invoice :=
  stored "Globex" "INV-1" (PyInt 480) a_day_ago.


(** An earlier record that carries the number of [acme_candidate]. *)
Definition earlier_inv_9 : invoice :=
  stored "Initech" "INV-9" (PyInt 75) a_day_ago.

Definition newline : list ascii := ["010"%char].

Definition empty_object : list ascii := ["{"; "}"]%char.

(* ================================================================== *)
(** * Properties: arithmetic *)
(* ================================================================== *)

Lemma Qlt_bool_iff (x y : Q) : Qlt_bool x y = true <-> x < y.
Proof.
  unfold Qlt_bool. rewrite negb_true_iff. split; intro H.
  - apply Qnot_le_lt. intro Hle. apply Qle_bool_iff in Hle. congruence.
  - destruct (Qle_bool y x) eqn:E; [|reflexivity].
    apply Qle_bool_iff in E. exfalso. exact (Qlt_not_le _ _ H E).
Qed.


Lemma py_mod_zero_iff (a : Q) (m : Z) :
  (0 < m)%Z ->
  (Qeq_bool (py_mod a (inject_Z m)) 0 = true <-> multiple_of m a).
Proof.
  intro Hm.
  assert (Hm0 : ~ inject_Z m == 0).
  { intro H. unfold Qeq in H. simpl in H. lia. }
  rewrite Qeq_bool_iff. unfold py_mod, multiple_of. split.
  - intro H. exists (Qfloor (a / inject_Z m)).
    rewrite inject_Z_mult, Qmult_comm.
    apply Qplus_inj_r with (z := - (inject_Z m * inject_Z (Qfloor (a / inject_Z m)))).
    rewrite Qplus_opp_r. exact H.
  - intros [k Hk].
    assert (Hq : a / inject_Z m == inject_Z k).
    { rewrite Hk, inject_Z_mult. field. exact Hm0. }
    rewrite (Qfloor_comp _ _ Hq), Qfloor_Z, Hk, inject_Z_mult. ring.
Qed.



(* ================================================================== *)
(** * Properties: amount normalization *)
(* ================================================================== *)


















(** The examples of the amount contract. *)
Example safe_float_examples :
  _safe_float (PyStr "$1,500.00") 0 == 1500 /\
  _safe_float (PyStr " 1 000.25 EUR ") 0 == 4001 # 4 /\
  _safe_float (PyStr "N/A") 0 == 0 /\
  _safe_float PyNone 0 == 0 /\
  _safe_float (PyFloat (5 # 2)) 0 == 5 # 2.
Proof. repeat split. Qed.

(* ================================================================== *)
(** * Properties: the round-number detector *)
(* ================================================================== *)

Lemma round_number_unfold (inv : invoice) :
  detect_round_number_fraud inv =
  let amount := invoice_amount inv in
  if Qlt_bool 1000 amount && Qeq_bool (py_mod amount (inject_Z 1000)) 0 then
    detected_issue medium (SuspiciouslyRound amount) None None
  else if Qlt_bool 100 amount && Qeq_bool (py_mod amount (inject_Z 100)) 0
          && Qlt_bool amount 1000 then
    detected_issue low (RoundNumber amount) None None
  else not_detected.
Proof. reflexivity. Qed.

(** C6.  The round-number detector reports a medium finding exactly when
    the normalized amount is above 1000 and a multiple of 1000, a low
    finding exactly when it lies strictly between 100 and 1000 and is a
    multiple of 100, and nothing otherwise; the two findings exclude each
    other and an amount of at most 100 is never reported. *)
Theorem round_number_detector_cases (inv : invoice) :
  let amount := invoice_amount inv in
  let finding := detect_round_number_fraud inv in
  (i_severity finding = Some medium
     <-> 1000 < amount /\ multiple_of 1000 amount) /\
  (i_severity finding = Some low
     <-> (100 < amount /\ amount < 1000) /\ multiple_of 100 amount) /\
  (finding = not_detected
     <-> ~ (1000 < amount /\ multiple_of 1000 amount) /\
         ~ ((100 < amount /\ amount < 1000) /\ multiple_of 100 amount)) /\
  (is_detected finding = true
     <-> i_severity finding = Some medium \/ i_severity finding = Some low) /\
  ~ (i_severity finding = Some medium /\ i_severity finding = Some low) /\
  (amount <= 100 -> finding = not_detected).
Proof.
  intros amount finding. subst finding.
  rewrite round_number_unfold. fold amount. cbv zeta.
  assert (M1 := py_mod_zero_iff amount 1000 eq_refl).
  assert (M2 := py_mod_zero_iff amount 100 eq_refl).
  assert (L1 := Qlt_bool_iff 1000 amount).
  assert (L2 := Qlt_bool_iff 100 amount).
  assert (L3 := Qlt_bool_iff amount 1000).
  assert (Hx : 1000 < amount -> amount < 1000 -> False).
  { intros A B. exact (Qlt_irrefl _ (Qlt_trans _ _ _ A B)). }
  assert (Hy : amount <= 100 -> 100 < amount -> False).
  { intros A B. exact (Qlt_not_le _ _ B A). }
  assert (Hz : amount <= 100 -> 1000 < amount -> False).
  { intros A B. apply (Qlt_not_le _ _ B). apply Qle_trans with 100; [exact A|].
    unfold Qle; simpl; lia. }
  destruct (Qlt_bool 1000 amount) eqn:E1;
  destruct (Qeq_bool (py_mod amount (inject_Z 1000)) 0) eqn:E2;
  destruct (Qlt_bool 100 amount) eqn:E3;
  destruct (Qeq_bool (py_mod amount (inject_Z 100)) 0) eqn:E4;
  destruct (Qlt_bool amount 1000) eqn:E5;
  cbn [andb is_detected i_detected i_severity detected_issue not_detected];
  repeat split; intros;
  try discriminate; try reflexivity; try tauto;
  try (intuition (try discriminate; try congruence; auto; fail)).
Qed.

(** The sample amounts: 2000 and 300 are reported, 250 (no multiple of
    100), 1234, 1000 and 100 are not. *)
Example round_number_examples :
  i_severity (detect_round_number_fraud (billed 2000 0 [])) = Some medium /\
  i_severity (detect_round_number_fraud (billed 300 0 [])) = Some low /\
  detect_round_number_fraud (billed 250 0 []) = not_detected /\
  detect_round_number_fraud (billed 1234 0 []) = not_detected /\
  detect_round_number_fraud (billed 1000 0 []) = not_detected /\
  detect_round_number_fraud (billed 100 0 []) = not_detected.
Proof. repeat split. Qed.

Lemma round_number_detector_cases_witness :
  i_severity (detect_round_number_fraud (billed 2000 0 [])) = Some medium /\
  detect_round_number_fraud (billed 100 0 []) = not_detected.
Proof.
  split.
  - destruct (round_number_detector_cases (billed 2000 0 [])) as [H _].
    apply H. split.
    + unfold Qlt. cbn. lia.
    + exists 2%Z. reflexivity.
  - destruct (round_number_detector_cases (billed 100 0 []))
      as [_ [_ [_ [_ [_ H]]]]].
    apply H. unfold Qle. cbn. lia.
Defined.

(* ================================================================== *)
(** * Properties: the calculation-mismatch detector *)
(* ================================================================== *)


(** The example of the specification: line items of 80 in all, VAT 20,
    and a declared total of 100.5 or of 102. *)
Example calculation_examples :
  detect_calculation_anomalies (billed (201 # 2) 20 [50; 30]) = not_detected /\
  i_severity (detect_calculation_anomalies (billed 102 20 [50; 30])) = Some high /\
  (exists d, i_discrepancy (detect_calculation_anomalies (billed 102 20 [50; 30]))
             = Some d /\ d == 2) /\
  detect_calculation_anomalies (billed 102 20 []) = not_detected.
Proof.
  repeat split. eexists. split; reflexivity.
Qed.


(* ================================================================== *)
(** * Properties: the duplicate detector *)
(* ================================================================== *)

(** One turn of the loop adds at most one exact-duplicate finding, and
    does so exactly when the record carries the candidate's number. *)
Lemma duplicate_step_exact clock supplier amount num acc k e :
  filter is_exact_duplicate
    (fst (duplicate_step clock supplier amount num (acc, k) e))
  = filter is_exact_duplicate acc
    ++ (if same_invoice_number num e then [exact_duplicate_finding num e] else []).
Proof.
  unfold duplicate_step, same_invoice_number.
  set (acc1 := match invoice_number e with
               | Some n => if String.eqb n num then acc ++ [_] else acc
               | None => acc
               end).
  assert (H1 : filter is_exact_duplicate acc1
               = filter is_exact_duplicate acc
                 ++ (if match invoice_number e with
                        | Some n => String.eqb n num
                        | None => false
                        end
                     then [exact_duplicate_finding num e] else [])).
  { subst acc1. destruct (invoice_number e) as [n|].
    - destruct (String.eqb n num).
      + rewrite filter_app. reflexivity.
      + rewrite app_nil_r. reflexivity.
    - rewrite app_nil_r. reflexivity. }
  destruct (same_supplier supplier e); [|exact H1].
  destruct (Qlt_bool _ _); [|exact H1].
  destruct (fromisoformat _); [|exact H1].
  destruct (Z.leb _ _); [|exact H1].
  cbn [fst]. rewrite filter_app. cbn. rewrite app_nil_r. exact H1.
Qed.

Lemma duplicate_loop_exact clock supplier amount num db :
  forall acc k,
  filter is_exact_duplicate
    (fst (fold_left (duplicate_step clock supplier amount num) db (acc, k)))
  = filter is_exact_duplicate acc
    ++ map (exact_duplicate_finding num) (filter (same_invoice_number num) db).
Proof.
  induction db as [|e db IH]; intros acc k; cbn [fold_left filter map].
  - rewrite app_nil_r. reflexivity.
  - destruct (duplicate_step clock supplier amount num (acc, k) e) as [acc' k'] eqn:E.
    rewrite IH.
    assert (H := duplicate_step_exact clock supplier amount num acc k e).
    rewrite E in H. cbn [fst] in H. rewrite H.
    rewrite <- app_assoc. f_equal.
    destruct (same_invoice_number num e); reflexivity.
Qed.

(** C4.  Whatever the clock, the exact-duplicate findings of the
    duplicate detector are, in store order, one critical finding for each
    store record whose invoice number is the candidate's; amounts and
    suppliers play no part in them. *)
Theorem exact_duplicate_per_record clock db inv k :
  let invoice_num := get_or (invoice_number inv) EmptyString in
  filter is_exact_duplicate (fst (detect_duplicate_invoices clock db inv k))
  = map (exact_duplicate_finding invoice_num)
      (filter (same_invoice_number invoice_num) db).
Proof.
  intro invoice_num. unfold detect_duplicate_invoices.
  fold invoice_num. rewrite duplicate_loop_exact. reflexivity.
Qed.

(** The example of the specification: candidate INV-1 of amount 100
    against a store that holds INV-1 with amount 999. *)
Example exact_duplicate_despite_amount :
  let existing := stored "Other Co" "INV-1" (PyInt 999) a_day_ago in
  fst (detect_duplicate_invoices still_clock [existing]
         (candidate "Acme Ltd" "INV-1" (PyInt 100) None None) 0)
  = [exact_duplicate_finding "INV-1" existing].
Proof. reflexivity. Qed.

(* ================================================================== *)
(** * Properties: the velocity detector *)
(* ================================================================== *)









(* ================================================================== *)
(** * Properties: records without timestamp *)
(* ================================================================== *)




Lemma duplicate_step_keeps clock supplier amount num acc k e x :
  In x acc -> In x (fst (duplicate_step clock supplier amount num (acc, k) e)).
Proof.
  intro H. unfold duplicate_step.
  set (acc1 := match invoice_number e with
               | Some n => if String.eqb n num then acc ++ [_] else acc
               | None => acc
               end).
  assert (H1 : In x acc1).
  { subst acc1. destruct (invoice_number e) as [n|]; [|exact H].
    destruct (String.eqb n num); [|exact H]. apply in_or_app. left. exact H. }
  destruct (same_supplier supplier e); [|exact H1].
  destruct (Qlt_bool _ _); [|exact H1].
  destruct (fromisoformat _); [|exact H1].
  destruct (Z.leb _ _); [|exact H1].
  cbn [fst]. apply in_or_app. left. exact H1.
Qed.

Lemma duplicate_loop_keeps clock supplier amount num db x :
  forall acc k,
  In x acc ->
  In x (fst (fold_left (duplicate_step clock supplier amount num) db (acc, k))).
Proof.
  induction db as [|e db IH]; intros acc k H; cbn [fold_left].
  - exact H.
  - assert (H1 := duplicate_step_keeps clock supplier amount num acc k e x H).
    destruct (duplicate_step clock supplier amount num (acc, k) e) as [acc' k'].
    apply IH. exact H1.
Qed.






(* ================================================================== *)
(** * Properties: the analysis and unparseable amounts *)
(* ================================================================== *)










(* ================================================================== *)
(** * Properties: the risk scorer *)
(* ================================================================== *)










(** With more than 10 records of which exactly one carries a parseable
    timestamp, the mean over zero gaps divides by zero. *)
Example single_timestamp_raises :
  calculate_risk_score one_dated_store "Acme Ltd" = Raised ZeroDivisionError.
Proof. reflexivity. Qed.

Example new_supplier_is_neutral :
  calculate_risk_score gapped_store "Globex"
  = Returned {| score := 50; level := level_medium;
                risk_reason := Some "New supplier - no historical data"%string;
                total_invoices := None; flagged_invoices := None |}.
Proof. reflexivity. Qed.

(* ================================================================== *)
(** * Properties: the payment matcher *)
(* ================================================================== *)

Section MatcherProperties.

Variable float_of_str : string -> pyresult Q.

Lemma py_float_number (v : pyval) (x : Q) :
  number_of v = Some x -> py_float float_of_str v = Returned x.
Proof.
  destruct v; cbn; intro H; inversion H; reflexivity.
Qed.

Lemma py_float_total (inv : invoice) (t : Q) :
  numeric_amount inv = Some t ->
  py_float float_of_str (get_or (total_amount inv) (PyInt 0)) = Returned t.
Proof.
  unfold numeric_amount. destruct (total_amount inv) as [v|]; cbn [get_or].
  - apply py_float_number.
  - intro H. inversion H. reflexivity.
Qed.

Lemma exact_rule_bool (p t tolerance : Q) :
  Qle_bool (Qabs (p - t)) tolerance = true <-> exact_rule p t tolerance.
Proof. apply Qle_bool_iff. Qed.

Lemma partial_rule_bool (p t : Q) :
  Qlt_bool p t && Qlt_bool 0 p = true <-> partial_rule p t.
Proof.
  unfold partial_rule. rewrite andb_true_iff, !Qlt_bool_iff. tauto.
Qed.

(** One turn of the loop on an invoice with a numeric total. *)
Lemma scan_here (pay : payment) (p tolerance : Q) (inv : invoice)
    (rest : list invoice) (t : Q) :
  numeric_amount inv = Some t ->
  scan_pending float_of_str pay p tolerance (inv :: rest)
  = if Qle_bool (Qabs (p - t)) tolerance then Returned (exact_result inv pay)
    else if Qlt_bool p t && Qlt_bool 0 p
         then Returned (partial_result inv pay p t)
         else scan_pending float_of_str pay p tolerance rest.
Proof.
  intro H. cbn [scan_pending]. rewrite (py_float_total inv t H). reflexivity.
Qed.

Lemma scan_passes_over (pay : payment) (p tolerance : Q)
    (pre rest : list invoice) :
  Forall (passed_over p tolerance) pre ->
  scan_pending float_of_str pay p tolerance (pre ++ rest)
  = scan_pending float_of_str pay p tolerance rest.
Proof.
  induction 1 as [|e pre [u [Hu [Hx Hp]]] Hpre IH]; [reflexivity|].
  rewrite <- app_comm_cons, (scan_here pay p tolerance e (pre ++ rest) u Hu).
  destruct (Qle_bool (Qabs (p - u)) tolerance) eqn:E1.
  - exfalso. apply Hx. apply exact_rule_bool. exact E1.
  - destruct (Qlt_bool p u && Qlt_bool 0 p) eqn:E2.
    + exfalso. apply Hp. apply partial_rule_bool. exact E2.
    + exact IH.
Qed.

Lemma scan_first_fit (pay : payment) (p tolerance : Q)
    (pre post : list invoice) (inv : invoice) (t : Q) :
  Forall (passed_over p tolerance) pre ->
  numeric_amount inv = Some t ->
  (exact_rule p t tolerance ->
   scan_pending float_of_str pay p tolerance (pre ++ inv :: post)
   = Returned (exact_result inv pay)) /\
  (~ exact_rule p t tolerance -> partial_rule p t ->
   scan_pending float_of_str pay p tolerance (pre ++ inv :: post)
   = Returned (partial_result inv pay p t)).
Proof.
  intros Hpre Ht.
  rewrite (scan_passes_over pay p tolerance pre (inv :: post) Hpre),
    (scan_here pay p tolerance inv post t Ht).
  split.
  - intro Hx. apply exact_rule_bool in Hx. rewrite Hx. reflexivity.
  - intros Hx Hp. apply partial_rule_bool in Hp. rewrite Hp.
    destruct (Qle_bool (Qabs (p - t)) tolerance) eqn:E1; [|reflexivity].
    exfalso. apply Hx. apply exact_rule_bool. exact E1.
Qed.

Lemma scan_unmatched (pay : payment) (p tolerance : Q) (pending : list invoice) :
  Forall (passed_over p tolerance) pending ->
  scan_pending float_of_str pay p tolerance pending
  = Returned (unmatched_result pay).
Proof.
  intro H.
  rewrite <- (app_nil_r pending), (scan_passes_over pay p tolerance pending [] H).
  reflexivity.
Qed.

(** The loop over the payments returns the results of the single
    matches, in order, each against the whole pending list. *)
Lemma match_payments_spec (pending : list invoice) (payments : list payment) :
  forall acc results,
  match_payments float_of_str pending payments acc = Returned results <->
  exists ms, results = acc ++ ms /\
    Forall2 (fun pay m =>
               match_payment_to_invoice float_of_str pending pay default_tolerance
               = Returned m) payments ms.
Proof.
  induction payments as [|pay payments IH]; intros acc results;
    cbn [match_payments].
  - split.
    + intro H. inversion H; subst. exists []. rewrite app_nil_r.
      split; constructor.
    + intros [ms [-> F]]. inversion F; subst. rewrite app_nil_r. reflexivity.
  - destruct (match_payment_to_invoice float_of_str pending pay default_tolerance)
      as [m|e] eqn:E; cbn [bind].
    + rewrite IH. split.
      * intros [ms [-> F]]. exists (m :: ms). rewrite <- app_assoc.
        split; [reflexivity|]. constructor; assumption.
      * intros [ms [-> F]]. inversion F as [|? m' ? ms' Hm F']; subst.
        rewrite E in Hm. inversion Hm; subst.
        exists ms'. rewrite <- app_assoc. split; [reflexivity|exact F'].
    + split; [discriminate|].
      intros [ms [_ F]]. inversion F as [|? m' ? ms' Hm F']; subst.
      rewrite E in Hm. discriminate.
Qed.

(** On numeric totals the scan returns. *)
Lemma scan_returns (pay : payment) (p tolerance : Q) (pending : list invoice) :
  Forall has_numeric_amount pending ->
  exists m, scan_pending float_of_str pay p tolerance pending = Returned m.
Proof.
  induction 1 as [|e pending [u Hu] Hall IH].
  - eexists. reflexivity.
  - rewrite (scan_here pay p tolerance e pending u Hu).
    destruct (Qle_bool _ _); [eexists; reflexivity|].
    destruct (_ && _); [eexists; reflexivity|exact IH].
Qed.

Lemma scan_never_exact (pay : payment) (p tolerance : Q)
    (pending : list invoice) :
  tolerance < 0 ->
  forall m, scan_pending float_of_str pay p tolerance pending = Returned m ->
            m_match_type m <> Some exact.
Proof.
  intros Hneg. induction pending as [|inv rest IH]; intros m; cbn [scan_pending].
  - intro H. inversion H; subst. cbn. discriminate.
  - destruct (py_float float_of_str _) as [t|e]; cbn [bind]; [|discriminate].
    assert (E : Qle_bool (Qabs (p - t)) tolerance = false).
    { destruct (Qle_bool (Qabs (p - t)) tolerance) eqn:E; [|reflexivity].
      apply Qle_bool_iff in E. exfalso.
      apply (Qlt_irrefl 0). apply Qle_lt_trans with tolerance; [|exact Hneg].
      apply Qle_trans with (Qabs (p - t)); [apply Qabs_nonneg|exact E]. }
    rewrite E.
    destruct (Qlt_bool p t && Qlt_bool 0 p).
    + intro H. inversion H; subst. cbn. discriminate.
    + apply IH.
Qed.

End MatcherProperties.

Lemma negative_tolerance_excludes_exact (p t tolerance : Q) :
  tolerance < 0 -> ~ exact_rule p t tolerance.
Proof.
  intros Hneg E. unfold exact_rule in E.
  apply (Qlt_irrefl 0). apply Qle_lt_trans with tolerance; [|exact Hneg].
  apply Qle_trans with (Qabs (p - t)); [apply Qabs_nonneg|exact E].
Qed.

Lemma without_partial_passed_over (p tolerance : Q) (l : list invoice) :
  tolerance < 0 ->
  Forall (without_partial p) l -> Forall (passed_over p tolerance) l.
Proof.
  intros Hneg. induction 1 as [|e l [u [Hu Hp]] Hl IH]; constructor; [|exact IH].
  exists u. split; [exact Hu|]. split; [|exact Hp].
  apply negative_tolerance_excludes_exact. exact Hneg.
Qed.

(** The matcher on numeric amounts: a payment of [p] is matched to the
    first pending invoice that satisfies a rule, exactly when the totals
    agree within the tolerance and else in part when 0 < p < total, and is
    unmatched when no pending invoice satisfies a rule; this is the common
    ground of the theorems on the matcher. *)
Lemma matcher_on_numbers float_of_str pending pay tolerance p :
  number_of (value pay) = Some p ->
  (forall pre inv post t,
     pending = pre ++ inv :: post ->
     Forall (passed_over p tolerance) pre ->
     numeric_amount inv = Some t ->
     (exact_rule p t tolerance ->
      match_payment_to_invoice float_of_str pending pay tolerance
      = Returned (exact_result inv pay)) /\
     (~ exact_rule p t tolerance -> partial_rule p t ->
      match_payment_to_invoice float_of_str pending pay tolerance
      = Returned (partial_result inv pay p t))) /\
  (Forall (passed_over p tolerance) pending ->
   match_payment_to_invoice float_of_str pending pay tolerance
   = Returned (unmatched_result pay)) /\
  (Forall has_numeric_amount pending ->
   exists m,
     match_payment_to_invoice float_of_str pending pay tolerance = Returned m).
Proof.
  intros Hp. unfold match_payment_to_invoice.
  rewrite (py_float_number float_of_str (value pay) p Hp). cbn [bind].
  split; [|split].
  - intros pre inv post t -> Hpre Ht.
    exact (scan_first_fit float_of_str pay p tolerance pre post inv t Hpre Ht).
  - apply scan_unmatched.
  - apply scan_returns.
Qed.



(** The matcher applies [float] to the stored total as it is: a total
    kept as currency-formatted text, which [float] rejects, makes it
    raise. *)
Example text_amount_raises :
  match_payment_to_invoice no_text_float
    [stored "Acme Ltd" "INV-1" (PyStr "$1,500.00") a_day_ago]
    (payment_of 1500) (1 # 100)
  = Raised ValueError.
Proof. reflexivity. Qed.

(** C8, as the code has it.  A negative tolerance raises no error: no
    invoice can match exactly, and the matcher returns the partial match
    of the first pending invoice with 0 < value < total, or the unmatched
    result when there is none. *)
Theorem negative_tolerance_is_accepted float_of_str pending pay tolerance p :
  tolerance < 0 ->
  number_of (value pay) = Some p ->
  (forall pre inv post t,
     pending = pre ++ inv :: post ->
     Forall (without_partial p) pre ->
     numeric_amount inv = Some t ->
     partial_rule p t ->
     match_payment_to_invoice float_of_str pending pay tolerance
     = Returned (partial_result inv pay p t)) /\
  (Forall (without_partial p) pending ->
   match_payment_to_invoice float_of_str pending pay tolerance
   = Returned (unmatched_result pay)) /\
  (forall m,
     match_payment_to_invoice float_of_str pending pay tolerance = Returned m ->
     m_match_type m <> Some exact).
Proof.
  intros Hneg Hp.
  destruct (matcher_on_numbers float_of_str pending pay tolerance p Hp)
    as [H1 [H2 _]].
  split; [|split].
  - intros pre inv post t Hpending Hpre Ht Hpart.
    destruct (H1 pre inv post t Hpending
                (without_partial_passed_over p tolerance pre Hneg Hpre) Ht)
      as [_ H3].
    apply H3; [|exact Hpart].
    apply negative_tolerance_excludes_exact. exact Hneg.
  - intro Hall. apply H2.
    exact (without_partial_passed_over p tolerance pending Hneg Hall).
  - intros m. unfold match_payment_to_invoice.
    rewrite (py_float_number float_of_str (value pay) p Hp). cbn [bind].
    apply scan_never_exact. exact Hneg.
Qed.

(** C8 as the specification states it fails: under the tolerance -1 the
    matcher returns a partial match for a payment of 60 against an
    invoice of 100. *)
Lemma negative_tolerance_returns_a_match :
  match_payment_to_invoice no_text_float [pending_100] (payment_of 60) (-1)
  = Returned (partial_result pending_100 (payment_of 60) 60 100).
Proof. reflexivity. Qed.

Lemma negative_tolerance_is_accepted_witness :
  -1 < 0 /\
  match_payment_to_invoice no_text_float [pending_100] (payment_of 150) (-1)
  = Returned (unmatched_result (payment_of 150)).
Proof.
  assert (Hneg : -1 < 0) by (unfold Qlt; cbn; lia).
  split; [exact Hneg|].
  destruct (negative_tolerance_is_accepted no_text_float [pending_100]
              (payment_of 150) (-1) 150 Hneg eq_refl) as [_ [H _]].
  apply H. constructor; [|constructor].
  exists 100. split; [reflexivity|]. unfold partial_rule, Qlt. cbn. lia.
Defined.

(* ================================================================== *)
(** * Further properties: the duplicate detector *)
(* ================================================================== *)








(* ================================================================== *)
(** * Further properties: the velocity detector *)
(* ================================================================== *)

Lemma velocity_step_upper clock supplier c k e :
  (fst (velocity_step clock supplier (c, k) e)
   <= c + (if same_supplier supplier e && readable_timestamp e then 1 else 0))%nat.
Proof.
  unfold velocity_step, readable_timestamp.
  destruct (same_supplier supplier e); cbn [andb]; [|cbn; lia].
  destruct (timestamp e) as [[t|]|]; cbn [get_or fromisoformat].
  - destruct (Z.leb _ _); cbn; lia.
  - cbn; lia.
  - destruct (Z.leb _ _); cbn; lia.
Qed.

Lemma velocity_loop_upper clock supplier db :
  forall c k,
  (fst (fold_left (velocity_step clock supplier) db (c, k))
   <= c + List.length
            (filter (fun e => same_supplier supplier e && readable_timestamp e) db))%nat.
Proof.
  induction db as [|e db IH]; intros c k; cbn [fold_left filter].
  - cbn. lia.
  - assert (H := velocity_step_upper clock supplier c k e).
    destruct (velocity_step clock supplier (c, k) e) as [c' k'].
    cbn [fst] in H. specialize (IH c' k').
    destruct (same_supplier supplier e && readable_timestamp e);
      cbn [List.length]; lia.
Qed.

(** X3.  Whatever the clock does, the velocity detector answers either
    with no finding, and then its count is under 5, or with one high
    finding that carries the count and the lower-cased supplier of the
    candidate; the count is then at least 5 and at most the number of
    records of that supplier whose timestamp is absent or parses. *)
Theorem velocity_finding_bounds clock db inv k :
  let finding := fst (detect_velocity_attack clock db inv k) in
  let readable :=
    List.length (filter (fun e => same_supplier (candidate_supplier inv) e
                                  && readable_timestamp e) db) in
  (finding = not_detected /\ (velocity_recent_count clock db inv k < 5)%nat) \/
  (exists n, finding = detected_issue high
                         (VelocityPattern n (candidate_supplier inv)) (Some n) None /\
             n = velocity_recent_count clock db inv k /\
             (5 <= n <= readable)%nat).
Proof.
  intros finding readable. subst finding.
  unfold detect_velocity_attack, velocity_recent_count.
  fold (candidate_supplier inv).
  assert (U := velocity_loop_upper clock (candidate_supplier inv) db 0%nat k).
  destruct (fold_left (velocity_step clock (candidate_supplier inv)) db (0%nat, k))
    as [c k'].
  cbn [fst] in *. destruct (5 <=? c)%nat eqn:E.
  - right. exists c. apply Nat.leb_le in E. cbn [fst].
    split; [reflexivity|]. split; [reflexivity|]. subst readable. lia.
  - left. apply Nat.leb_gt in E. cbn [fst]. split; [reflexivity|exact E].
Qed.

(* ================================================================== *)
(** * Further properties: the risk scorer *)
(* ================================================================== *)






(* ================================================================== *)
(** * Further properties: the report of an analysis *)
(* ================================================================== *)

Lemma analyze_invoice_unfold clock db inv k :
  analyze_invoice clock db inv k
  = bind (calculate_risk_score db (get_or (supplier_name inv) EmptyString))
      (fun risk =>
         Returned {| detected_issues := rule_findings clock db inv k;
                     supplier_risk := risk;
                     total_issues := List.length (rule_findings clock db inv k) |}).
Proof.
  unfold analyze_invoice, rule_findings.
  destruct (detect_duplicate_invoices clock db inv k) as [dups k1].
  cbn [fst snd].
  destruct (detect_velocity_attack clock db inv k1) as [vel k2]. cbn [fst].
  assert (H : match dups with [] => [] | _ :: _ => [] ++ dups end = dups).
  { destruct dups; reflexivity. }
  rewrite H. cbn [filter].
  destruct (is_detected (detect_round_number_fraud inv));
  destruct (is_detected vel);
  destruct (is_detected (detect_calculation_anomalies inv));
  cbn [app]; rewrite <- ?app_assoc, ?app_nil_r; reflexivity.
Qed.












(* ================================================================== *)
(** * Further properties: the records of other suppliers *)
(* ================================================================== *)

Lemma fold_left_filter_neutral {A S : Type} (step : S -> A -> S) (p : A -> bool)
    (l : list A) :
  (forall s e, p e = false -> step s e = s) ->
  forall s, fold_left step (filter p l) s = fold_left step l s.
Proof.
  intro H. induction l as [|e l IH]; intro s; cbn [filter fold_left].
  - reflexivity.
  - destruct (p e) eqn:E; cbn [fold_left].
    + apply IH.
    + rewrite (H s e E). apply IH.
Qed.

Lemma velocity_step_other clock supplier st e :
  same_supplier supplier e = false -> velocity_step clock supplier st e = st.
Proof.
  intro H. unfold velocity_step. destruct st as [c k]. rewrite H. reflexivity.
Qed.

Lemma velocity_ignores_others clock db inv k :
  detect_velocity_attack clock
    (supplier_records (get_or (supplier_name inv) EmptyString) db) inv k
  = detect_velocity_attack clock db inv k.
Proof.
  unfold detect_velocity_attack, supplier_records.
  rewrite (fold_left_filter_neutral (velocity_step clock _) _ db
             (fun st e => velocity_step_other clock _ st e)).
  reflexivity.
Qed.

Lemma supplier_records_idem name db :
  supplier_records name (supplier_records name db) = supplier_records name db.
Proof.
  unfold supplier_records. induction db as [|e db IH]; cbn [filter]; [reflexivity|].
  destruct (same_supplier (lower name) e) eqn:E; cbn [filter].
  - rewrite E, IH. reflexivity.
  - exact IH.
Qed.

Lemma risk_ignores_others db name :
  calculate_risk_score (supplier_records name db) name
  = calculate_risk_score db name.
Proof.
  unfold calculate_risk_score.
  fold (supplier_records name db).
  fold (supplier_records name (supplier_records name db)).
  rewrite supplier_records_idem. reflexivity.
Qed.

(** X7.  The velocity detector and the risk scorer read nothing but the
    records of the supplier, compared without case: on the store reduced
    to these records they give the same answer, and the velocity detector
    makes the same number of clock readings. *)
Theorem velocity_and_risk_ignore_other_suppliers clock db inv k :
  let own := supplier_records (get_or (supplier_name inv) EmptyString) db in
  detect_velocity_attack clock own inv k = detect_velocity_attack clock db inv k /\
  calculate_risk_score own (get_or (supplier_name inv) EmptyString)
  = calculate_risk_score db (get_or (supplier_name inv) EmptyString).
Proof.
  split; [apply velocity_ignores_others|apply risk_ignores_others].
Qed.

Lemma duplicate_step_other clock supplier amount num st e :
  same_invoice_number num e = false ->
  same_supplier supplier e = false ->
  duplicate_step clock supplier amount num st e = st.
Proof.
  unfold duplicate_step, same_invoice_number. destruct st as [acc k].
  intros Hn Hs. rewrite Hs. destruct (invoice_number e) as [n|]; [|reflexivity].
  rewrite Hn. reflexivity.
Qed.

Lemma duplicates_ignore_others clock db inv k :
  unused_number (get_or (invoice_number inv) EmptyString) db ->
  detect_duplicate_invoices clock
    (supplier_records (get_or (supplier_name inv) EmptyString) db) inv k
  = detect_duplicate_invoices clock db inv k.
Proof.
  unfold detect_duplicate_invoices, supplier_records, unused_number.
  set (step := duplicate_step clock _ _ _).
  generalize (@nil issue, k).
  induction db as [|e db IH]; intros st H; cbn [filter fold_left]; [reflexivity|].
  inversion H as [|? ? He Hdb]; subst.
  destruct (same_supplier _ e) eqn:E; cbn [fold_left].
  - apply IH. exact Hdb.
  - subst step. rewrite (duplicate_step_other clock _ _ _ st e He E).
    apply IH. exact Hdb.
Qed.

(** X8.  The records of other suppliers enter an analysis through their
    invoice numbers only: when no record of the store carries the
    candidate's invoice number, the analysis against the store and the
    analysis against the records of the candidate's supplier give the same
    outcome. *)
Theorem analysis_ignores_other_suppliers clock db inv k :
  unused_number (get_or (invoice_number inv) EmptyString) db ->
  analyze_invoice clock
    (supplier_records (get_or (supplier_name inv) EmptyString) db) inv k
  = analyze_invoice clock db inv k.
Proof.
  intro H. rewrite !analyze_invoice_unfold. unfold rule_findings.
  rewrite (duplicates_ignore_others clock db inv k H),
    velocity_ignores_others, risk_ignores_others.
  reflexivity.
Qed.

Lemma analysis_ignores_other_suppliers_witness :
  unused_number (get_or (invoice_number acme_candidate) EmptyString)
    [globex_record; undated_record] /\
  analyze_invoice still_clock
    (supplier_records (get_or (supplier_name acme_candidate) EmptyString)
       [globex_record; undated_record]) acme_candidate 0
  = analyze_invoice still_clock [globex_record; undated_record] acme_candidate 0.
Proof.
  assert (H : unused_number (get_or (invoice_number acme_candidate) EmptyString)
                [globex_record; undated_record]).
  { repeat constructor. }
  split; [exact H|].
  exact (analysis_ignores_other_suppliers still_clock
           [globex_record; undated_record] acme_candidate 0 H).
Defined.

(* ================================================================== *)
(** * Further properties: the matcher and the reconciliation *)
(* ================================================================== *)

Lemma partial_share (p t : Q) :
  partial_rule p t -> 0 < t - p /\ 0 < p / t * 100 /\ p / t * 100 < 100.
Proof.
  intros [Hp Ht].
  assert (T : 0 < t) by (apply Qlt_trans with p; assumption).
  split; [|split].
  - rewrite <- (Qplus_opp_r p). apply Qplus_lt_l. exact Ht.
  - apply Qmult_lt_0_compat; [|reflexivity].
    apply Qlt_shift_div_l; [exact T|]. rewrite Qmult_0_l. exact Hp.
  - setoid_replace 100 with (1 * 100) at 2 by reflexivity.
    apply Qmult_lt_r; [reflexivity|].
    apply Qlt_shift_div_r; [exact T|]. rewrite Qmult_1_l. exact Ht.
Qed.

Section MatcherSoundness.

Variable float_of_str : string -> pyresult Q.

Lemma scan_sound (pay : payment) (p tolerance : Q) (pending : list invoice) :
  py_float float_of_str (value pay) = Returned p ->
  forall m, scan_pending float_of_str pay p tolerance pending = Returned m ->
            sound_match float_of_str pending pay tolerance m.
Proof.
  intro Hp. induction pending as [|inv rest IH]; intros m; cbn [scan_pending].
  - intro H. inversion H; subst. split; reflexivity.
  - destruct (py_float float_of_str (get_or (total_amount inv) (PyInt 0)))
      as [t|e] eqn:Ht; cbn [bind]; [|discriminate].
    destruct (Qle_bool (Qabs (p - t)) tolerance) eqn:E1.
    { intro H. inversion H; subst. split; [reflexivity|]. cbn [matched].
      exists inv, p, t. repeat split; try assumption; try reflexivity.
      - left. reflexivity.
      - left. split; [reflexivity|]. apply Qle_bool_iff. exact E1. }
    destruct (Qlt_bool p t && Qlt_bool 0 p) eqn:E2.
    { intro H. inversion H; subst. split; [reflexivity|]. cbn [matched].
      apply andb_true_iff in E2. destruct E2 as [E2 E3].
      apply Qlt_bool_iff in E2. apply Qlt_bool_iff in E3.
      assert (R : partial_rule p t) by (split; assumption).
      exists inv, p, t. split; [reflexivity|]. split; [left; reflexivity|].
      split; [exact Hp|]. split; [exact Ht|]. right.
      split; [reflexivity|]. split; [exact R|]. apply partial_share. exact R. }
    intro H. destruct (IH m H) as [H1 H2]. split; [exact H1|].
    destruct (matched m); [|exact H2].
    destruct H2 as (inv' & p' & t' & Hi & Hin & H2).
    exists inv', p', t'. split; [exact Hi|]. split; [right; exact Hin|exact H2].
Qed.

Lemma match_sound (pending : list invoice) (pay : payment) (tolerance : Q)
    (m : match_result) :
  match_payment_to_invoice float_of_str pending pay tolerance = Returned m ->
  sound_match float_of_str pending pay tolerance m.
Proof.
  unfold match_payment_to_invoice.
  destruct (py_float float_of_str (value pay)) as [p|e] eqn:Hp; cbn [bind];
    [|discriminate].
  apply scan_sound. exact Hp.
Qed.

(** A larger tolerance: the scan stops no later, and what it accepted
    stays accepted. *)
Lemma scan_tolerance_mono (pay : payment) (p t1 t2 : Q) (pending : list invoice) :
  t1 <= t2 ->
  forall m1, scan_pending float_of_str pay p t1 pending = Returned m1 ->
  exists m2, scan_pending float_of_str pay p t2 pending = Returned m2 /\
             (matched m1 = true -> matched m2 = true) /\
             (m_match_type m1 = Some exact -> m_match_type m2 = Some exact).
Proof.
  intro Hle. induction pending as [|inv rest IH]; intros m1; cbn [scan_pending].
  - intro H. inversion H; subst. eexists. split; [reflexivity|].
    split; intro H1; exact H1.
  - destruct (py_float float_of_str (get_or (total_amount inv) (PyInt 0)))
      as [t|e]; cbn [bind]; [|discriminate].
    destruct (Qle_bool (Qabs (p - t)) t1) eqn:E1.
    { assert (E2 : Qle_bool (Qabs (p - t)) t2 = true).
      { apply Qle_bool_iff. apply Qle_trans with t1; [|exact Hle].
        apply Qle_bool_iff. exact E1. }
      rewrite E2. intro H. inversion H; subst. eexists.
      split; [reflexivity|]. split; reflexivity. }
    destruct (Qle_bool (Qabs (p - t)) t2) eqn:E2.
    { intro H. eexists. split; [reflexivity|]. split; reflexivity. }
    destruct (Qlt_bool p t && Qlt_bool 0 p).
    { intro H. inversion H; subst. eexists. split; [reflexivity|].
      split; intro H1; exact H1. }
    apply IH.
Qed.

End MatcherSoundness.

(** X9.  For every reading of texts by [float]: a result that the matcher
    returns names the payment it was asked about; when unmatched it is the
    unmatched result; when matched it names an invoice of the pending list
    whose total and the payment value were both read as numbers, and
    either it is the exact result and the two differ by at most the
    tolerance, or it is the partial result, the payment is positive and
    under the total, the remainder is positive and the paid percentage
    lies strictly between 0 and 100. *)
Theorem match_result_is_sound float_of_str pending pay tolerance m :
  match_payment_to_invoice float_of_str pending pay tolerance = Returned m ->
  sound_match float_of_str pending pay tolerance m.
Proof.
  unfold match_payment_to_invoice.
  destruct (py_float float_of_str (value pay)) as [p|e] eqn:Hp; cbn [bind];
    [|discriminate].
  apply scan_sound. exact Hp.
Qed.

Lemma match_result_is_sound_witness :
  match_payment_to_invoice no_text_float [pending_100] (payment_of 60) (1 # 100)
  = Returned (partial_result pending_100 (payment_of 60) 60 100) /\
  sound_match no_text_float [pending_100] (payment_of 60) (1 # 100)
    (partial_result pending_100 (payment_of 60) 60 100).
Proof.
  split; [reflexivity|].
  exact (match_result_is_sound no_text_float [pending_100] (payment_of 60)
           (1 # 100) (partial_result pending_100 (payment_of 60) 60 100) eq_refl).
Defined.


(** X10.  Under a larger tolerance the matcher returns whenever it
    returned under the smaller one, a payment that was matched stays
    matched and an exact match stays exact. *)
Theorem larger_tolerance_keeps_matches float_of_str pending pay t1 t2 m1 :
  t1 <= t2 ->
  match_payment_to_invoice float_of_str pending pay t1 = Returned m1 ->
  exists m2,
    match_payment_to_invoice float_of_str pending pay t2 = Returned m2 /\
    (matched m1 = true -> matched m2 = true) /\
    (m_match_type m1 = Some exact -> m_match_type m2 = Some exact).
Proof.
  intro Hle. unfold match_payment_to_invoice.
  destruct (py_float float_of_str (value pay)) as [p|e]; cbn [bind];
    [|discriminate].
  apply scan_tolerance_mono. exact Hle.
Qed.

Lemma larger_tolerance_keeps_matches_witness :
  1 # 100 <= 50 /\
  match_payment_to_invoice no_text_float [pending_100] (payment_of 60) (1 # 100)
  = Returned (partial_result pending_100 (payment_of 60) 60 100) /\
  exists m2,
    match_payment_to_invoice no_text_float [pending_100] (payment_of 60) 50
    = Returned m2 /\
    (matched (partial_result pending_100 (payment_of 60) 60 100) = true ->
     matched m2 = true) /\
    (m_match_type (partial_result pending_100 (payment_of 60) 60 100) = Some exact ->
     m_match_type m2 = Some exact).
Proof.
  assert (H : 1 # 100 <= 50) by (unfold Qle; cbn; lia).
  split; [exact H|]. split; [reflexivity|].
  exact (larger_tolerance_keeps_matches no_text_float [pending_100]
           (payment_of 60) (1 # 100) 50
           (partial_result pending_100 (payment_of 60) 60 100) H eq_refl).
Defined.


Lemma matched_partition (ms : list match_result) :
  (List.length (filter matched ms)
   + List.length (filter (fun m => negb (matched m)) ms) = List.length ms)%nat.
Proof.
  induction ms as [|m ms IH]; [reflexivity|].
  cbn [filter List.length]. destruct (matched m); cbn [negb List.length]; lia.
Qed.

Lemma Forall2_sound_payments float_of_str pending payments ms :
  Forall2 (fun pay m =>
             match_payment_to_invoice float_of_str pending pay default_tolerance
             = Returned m) payments ms ->
  map m_payment ms = payments /\
  Forall (fun m => forall inv, m_invoice m = Some inv -> In inv pending) ms.
Proof.
  induction 1 as [|pay m payments ms Hm F [IH1 IH2]].
  - split; [reflexivity|constructor].
  - apply match_sound in Hm. destruct Hm as [Hp Hs]. split.
    + cbn [map]. rewrite Hp, IH1. reflexivity.
    + constructor; [|exact IH2]. intros inv Hi.
      destruct (matched m).
      * destruct Hs as (inv' & p & t & Hi' & Hin & _).
        rewrite Hi in Hi'. inversion Hi'; subst. exact Hin.
      * rewrite Hs in Hi. discriminate.
Qed.

(** X11.  When [reconcile_payments] returns, either there was no pending
    invoice or no payment and the result is empty, or the results are one
    per observed payment, in their order; every invoice that a result names
    is a record of the database whose status is pending; and in the report
    the matched and the unmatched payments add up to the total, which is
    the number of results. *)
Theorem reconciliation_accounts_for_every_payment float_of_str data observed ms :
  reconcile_payments float_of_str data observed = Returned ms ->
  (ms = [] /\ (load_pending_invoices data = [] \/ observed = [])) \/
  (map m_payment ms = observed /\
   Forall (fun m => forall inv, m_invoice m = Some inv ->
                    In inv data /\ status inv = Some "pending"%string) ms /\
   total_payments (report_of observed ms) = List.length ms /\
   (matched_payments (report_of observed ms)
    + unmatched_payments (report_of observed ms)
    = total_payments (report_of observed ms))%nat).
Proof.
  unfold reconcile_payments.
  destruct (load_pending_invoices data) as [|i pending] eqn:P.
  { intro H. inversion H. left. split; [reflexivity|left; reflexivity]. }
  destruct observed as [|pay payments].
  { intro H. inversion H. left. split; [reflexivity|right; reflexivity]. }
  intro H. right.
  apply (match_payments_spec float_of_str) in H.
  destruct H as (ms' & -> & F). cbn [app].
  destruct (Forall2_sound_payments _ _ _ _ F) as [H1 H2].
  split; [exact H1|]. split.
  - apply Forall_forall. intros m Hm inv Hi.
    rewrite Forall_forall in H2. specialize (H2 m Hm inv Hi).
    rewrite <- P in H2. unfold load_pending_invoices in H2.
    apply filter_In in H2. destruct H2 as [Hin Hst]. split; [exact Hin|].
    destruct (status inv) as [s|]; [|discriminate].
    apply String.eqb_eq in Hst. rewrite Hst. reflexivity.
  - cbn [total_payments matched_payments unmatched_payments report_of].
    rewrite matched_partition. rewrite <- H1, length_map. split; reflexivity.
Qed.

Lemma reconciliation_accounts_for_every_payment_witness :
  reconcile_payments no_text_float [pending_100] [payment_of 60; payment_of 150]
  = Returned [ partial_result pending_100 (payment_of 60) 60 100;
               unmatched_result (payment_of 150) ] /\
  matched_payments
    (report_of [payment_of 60; payment_of 150]
       [ partial_result pending_100 (payment_of 60) 60 100;
         unmatched_result (payment_of 150) ]) = 1%nat.
Proof.
  split; [reflexivity|].
  destruct (reconciliation_accounts_for_every_payment no_text_float
              [pending_100] [payment_of 60; payment_of 150]
              [ partial_result pending_100 (payment_of 60) 60 100;
                unmatched_result (payment_of 150) ] eq_refl)
    as [[H _]|[_ [_ [_ H]]]].
  - discriminate H.
  - reflexivity.
Defined.


Lemma match_payments_raises float_of_str pending pre pay post e :
  Forall (fun p => exists m,
            match_payment_to_invoice float_of_str pending p default_tolerance
            = Returned m) pre ->
  match_payment_to_invoice float_of_str pending pay default_tolerance = Raised e ->
  forall acc,
  match_payments float_of_str pending (pre ++ pay :: post) acc = Raised e.
Proof.
  intros Hpre Hpay.
  induction Hpre as [|p pre [m Hm] Hpre IH]; intros acc;
    cbn [app match_payments].
  - rewrite Hpay. reflexivity.
  - rewrite Hm. cbn [bind]. apply IH.
Qed.

(** X12.  The reconciliation fails as a whole: with a pending invoice in
    the database, the first observed payment on which the matcher raises
    makes [reconcile_payments] raise the same exception, and the results
    of the payments before it are lost. *)
Theorem reconciliation_fails_as_a_whole float_of_str data pre pay post e :
  load_pending_invoices data <> [] ->
  Forall (fun p => exists m,
            match_payment_to_invoice float_of_str (load_pending_invoices data) p
              default_tolerance = Returned m) pre ->
  match_payment_to_invoice float_of_str (load_pending_invoices data) pay
    default_tolerance = Raised e ->
  reconcile_payments float_of_str data (pre ++ pay :: post) = Raised e.
Proof.
  intros Hne Hpre Hpay. unfold reconcile_payments.
  destruct (load_pending_invoices data) as [|i l] eqn:P; [congruence|].
  destruct (pre ++ pay :: post) as [|p0 l0] eqn:E.
  - destruct pre; discriminate.
  - rewrite <- E. apply match_payments_raises; assumption.
Qed.

Lemma reconciliation_fails_as_a_whole_witness :
  load_pending_invoices [pending_100] <> [] /\
  reconcile_payments no_text_float [pending_100]
    ([payment_of 60]
     ++ {| tx_hash := "0xmock456def"; value := PyStr "60.00 BNB";
           block_number := 12345679 |}
        :: [payment_of 100])
  = Raised ValueError.
Proof.
  assert (H : load_pending_invoices [pending_100] <> []) by discriminate.
  split; [exact H|].
  apply (reconciliation_fails_as_a_whole no_text_float [pending_100]
           [payment_of 60]
           {| tx_hash := "0xmock456def"; value := PyStr "60.00 BNB";
              block_number := 12345679 |}
           [payment_of 100] ValueError H).
  - constructor; [|constructor]. eexists. reflexivity.
  - reflexivity.
Defined.

(* ================================================================== *)
(** * Further properties: the answer of the language model *)
(* ================================================================== *)

Lemma lstrip_blank (w s : list ascii) : blank w -> lstrip (w ++ s) = lstrip s.
Proof.
  induction 1 as [|c w Hc Hw IH]; [reflexivity|].
  cbn [app lstrip]. rewrite Hc. exact IH.
Qed.

Lemma lstrip_head (c : ascii) (s : list ascii) :
  is_space c = false -> lstrip (c :: s) = c :: s.
Proof. intro H. cbn [lstrip]. rewrite H. reflexivity. Qed.

Lemma blank_rev (w : list ascii) : blank w -> blank (rev w).
Proof.
  unfold blank. rewrite !Forall_forall. intros H c Hc. apply H, in_rev, Hc.
Qed.

Lemma rstrip_blank (w s : list ascii) : blank w -> rstrip (s ++ w) = rstrip s.
Proof.
  intro H. unfold rstrip. rewrite rev_app_distr, lstrip_blank; [reflexivity|].
  apply blank_rev. exact H.
Qed.

Lemma rstrip_last (c : ascii) (s : list ascii) :
  is_space c = false -> rstrip (s ++ [c]) = s ++ [c].
Proof.
  intro H. unfold rstrip. rewrite rev_app_distr. cbn [rev app].
  rewrite lstrip_head by exact H. cbn [rev]. rewrite rev_involutive. reflexivity.
Qed.

Lemma rev_cons_inv {A : Type} (s t : list A) (d : A) :
  rev s = d :: t -> s = rev t ++ [d].
Proof. intro E. rewrite <- (rev_involutive s), E. reflexivity. Qed.

(** [strip] removes the white space around a text that neither begins
    nor ends with white space. *)
Lemma strip_around (w1 w2 s : list ascii) :
  blank w1 -> blank w2 -> ends_with (fun c => negb (is_space c)) s ->
  strip (w1 ++ s ++ w2) = s.
Proof.
  intros B1 B2 [H1 H2]. unfold strip. rewrite lstrip_blank by exact B1.
  destruct s as [|c r].
  - cbn [app]. rewrite <- (app_nil_r w2), lstrip_blank by exact B2. reflexivity.
  - apply negb_true_iff in H1. cbn [app]. rewrite lstrip_head by exact H1.
    change (c :: r ++ w2) with ((c :: r) ++ w2). rewrite rstrip_blank by exact B2.
    destruct (rev (c :: r)) as [|d t] eqn:E.
    + apply (f_equal (@List.length ascii)) in E. rewrite length_rev in E.
      discriminate.
    + apply negb_true_iff in H2. rewrite (rev_cons_inv _ _ _ E).
      apply rstrip_last. exact H2.
Qed.

Lemma ends_with_weaken (p q : ascii -> bool) (s : list ascii) :
  (forall c, p c = true -> q c = true) -> ends_with p s -> ends_with q s.
Proof.
  intros H [H1 H2]. split.
  - destruct s; [exact I|apply H, H1].
  - destruct (rev s); [exact I|apply H, H2].
Qed.

Lemma plain_not_space c : plain c = true -> negb (is_space c) = true.
Proof. unfold plain. intro H. apply andb_true_iff in H. tauto. Qed.

Lemma plain_not_backtick c : plain c = true -> Ascii.eqb c "`" = false.
Proof.
  unfold plain. intro H. apply andb_true_iff in H. destruct H as [_ H].
  apply negb_true_iff in H. exact H.
Qed.

Lemma space_not_backtick c : is_space c = true -> Ascii.eqb c "`" = false.
Proof.
  intro H. destruct (Ascii.eqb c "`") eqn:E; [|reflexivity].
  apply Ascii.eqb_eq in E. subst c. discriminate.
Qed.

Lemma startswith_app (p s : list ascii) : startswith p (p ++ s) = true.
Proof.
  induction p as [|c p IH]; [reflexivity|].
  cbn [app startswith]. rewrite Ascii.eqb_refl. exact IH.
Qed.

Lemma endswith_app (p s : list ascii) : endswith p (s ++ p) = true.
Proof. unfold endswith. rewrite rev_app_distr. apply startswith_app. Qed.

Lemma firstn_before (s p : list ascii) :
  firstn (List.length (s ++ p) - List.length p) (s ++ p) = s.
Proof.
  rewrite length_app, Nat.add_sub, firstn_app, Nat.sub_diag, firstn_all.
  cbn [firstn]. apply app_nil_r.
Qed.

(** The text between the fences: white space, the body, white space. *)
Lemma fenced_head (w2 body w3 : list ascii) (c : ascii) (r : list ascii) :
  blank w2 -> blank w3 -> plain_ends body ->
  w2 ++ body ++ w3 = c :: r -> Ascii.eqb c "`" = false.
Proof.
  intros B2 B3 [H1 _] E.
  destruct w2 as [|x w2].
  - destruct body as [|y body].
    + cbn [app] in E. subst w3. inversion B3; subst.
      apply space_not_backtick. assumption.
    + cbn [app] in E. inversion E; subst. apply plain_not_backtick. exact H1.
  - cbn [app] in E. inversion E; subst. inversion B2; subst.
    apply space_not_backtick. assumption.
Qed.

Lemma strip_fenced (w2 body w3 : list ascii) :
  blank w2 -> blank w3 -> plain_ends body -> strip (w2 ++ body ++ w3) = body.
Proof.
  intros B2 B3 H. apply strip_around; [exact B2|exact B3|].
  apply (ends_with_weaken plain); [exact plain_not_space|exact H].
Qed.

(** The closing fence goes, and the white space around the body. *)
Lemma clean_end (w2 body w3 : list ascii) :
  blank w2 -> blank w3 -> plain_ends body ->
  let result := w2 ++ body ++ w3 ++ fence in
  strip (if endswith fence result
         then firstn (List.length result - 3) result else result) = body.
Proof.
  intros B2 B3 H. cbv zeta.
  assert (A : w2 ++ body ++ w3 ++ fence = (w2 ++ body ++ w3) ++ fence).
  { rewrite <- !app_assoc. reflexivity. }
  rewrite A, endswith_app.
  change 3%nat with (List.length fence). rewrite firstn_before.
  apply strip_fenced; assumption.
Qed.

(** After [```json] the test for an opening fence is made again: it
    fails, unless nothing stands before the closing fence. *)
Lemma clean_tail (w2 body w3 : list ascii) :
  blank w2 -> blank w3 -> plain_ends body ->
  let result := w2 ++ body ++ w3 ++ fence in
  let result := if startswith fence result then skipn 3 result else result in
  strip (if endswith fence result
         then firstn (List.length result - 3) result else result) = body.
Proof.
  intros B2 B3 H. cbv zeta.
  assert (T := clean_end w2 body w3 B2 B3 H). cbv zeta in T.
  assert (S := strip_fenced w2 body w3 B2 B3 H).
  destruct (w2 ++ body ++ w3) as [|c r] eqn:E.
  - assert (E' : w2 ++ body ++ w3 ++ fence = fence).
    { change fence with ([] ++ fence) at 2. rewrite <- E, <- !app_assoc.
      reflexivity. }
    rewrite E'. cbn. cbn in S. exact S.
  - assert (Hc := fenced_head w2 body w3 c r B2 B3 H E).
    assert (N : startswith fence (w2 ++ body ++ w3 ++ fence) = false).
    { assert (E' : w2 ++ body ++ w3 ++ fence = c :: r ++ fence).
      { change (c :: r ++ fence) with ((c :: r) ++ fence).
        rewrite <- E, <- !app_assoc. reflexivity. }
      rewrite E'. cbn [startswith fence]. rewrite Hc. reflexivity. }
    rewrite N. exact T.
Qed.

Lemma fenced_ends (opening middle : list ascii) :
  ends_with (fun c => negb (is_space c)) (("`"%char :: opening) ++ middle ++ fence).
Proof.
  split; [reflexivity|].
  rewrite !rev_app_distr. reflexivity.
Qed.

(** X13.  The cleaning of the answer of the language model gives back
    the body, for a body that is empty or begins and ends with a character
    that is neither white space nor a backtick: when the body stands alone,
    when it stands between the fence [```json] and a closing fence, and
    when it stands between two plain fences unless the text after the
    opening fence begins with [json]; in each case with any white space
    around the body and around the whole. *)
Theorem clean_response_round_trip (w1 w2 w3 w4 body : list ascii) :
  blank w1 -> blank w2 -> blank w3 -> blank w4 -> plain_ends body ->
  clean_response (w1 ++ body ++ w4) = body /\
  clean_response (w1 ++ (json_fence ++ w2 ++ body ++ w3 ++ fence) ++ w4) = body /\
  (startswith json_word (w2 ++ body ++ w3 ++ fence) = false ->
   clean_response (w1 ++ (fence ++ w2 ++ body ++ w3 ++ fence) ++ w4) = body).
Proof.
  intros B1 B2 B3 B4 H.
  assert (T := clean_tail w2 body w3 B2 B3 H). cbv zeta in T.
  split; [|split].
  - unfold clean_response.
    assert (S : strip (w1 ++ body ++ w4) = body).
    { apply strip_around; [exact B1|exact B4|].
      apply (ends_with_weaken plain); [exact plain_not_space|exact H]. }
    rewrite S. destruct H as [H1 H2].
    assert (N1 : startswith fence body = false).
    { destruct body as [|c r]; [reflexivity|].
      cbn [startswith fence]. rewrite (plain_not_backtick c H1). reflexivity. }
    assert (N0 : startswith json_fence body = false).
    { destruct body as [|c r]; [reflexivity|].
      cbn [startswith json_fence fence app].
      rewrite (plain_not_backtick c H1). reflexivity. }
    assert (N2 : endswith fence body = false).
    { unfold endswith. revert H2.
      destruct (rev body) as [|c r]; intro H2; [reflexivity|].
      cbn [startswith fence rev app]. rewrite (plain_not_backtick c H2).
      reflexivity. }
    rewrite N0, N1, N2.
    assert (P : strip ([] ++ body ++ []) = body).
    { apply strip_around; [constructor|constructor|].
      apply (ends_with_weaken plain); [exact plain_not_space|split; assumption]. }
    cbn [app] in P. rewrite app_nil_r in P. exact P.
  - unfold clean_response.
    assert (S : strip (w1 ++ (json_fence ++ w2 ++ body ++ w3 ++ fence) ++ w4)
                = json_fence ++ w2 ++ body ++ w3 ++ fence).
    { apply strip_around; [exact B1|exact B4|].
      assert (F := fenced_ends (["`"; "`"; "j"; "s"; "o"; "n"]%char)
                     (w2 ++ body ++ w3)).
      rewrite <- !app_assoc in F. exact F. }
    rewrite S, startswith_app.
    change (skipn 7 (json_fence ++ w2 ++ body ++ w3 ++ fence))
      with (w2 ++ body ++ w3 ++ fence).
    exact T.
  - intro J. unfold clean_response.
    assert (S : strip (w1 ++ (fence ++ w2 ++ body ++ w3 ++ fence) ++ w4)
                = fence ++ w2 ++ body ++ w3 ++ fence).
    { apply strip_around; [exact B1|exact B4|].
      assert (F := fenced_ends (["`"; "`"]%char) (w2 ++ body ++ w3)).
      rewrite <- !app_assoc in F. exact F. }
    rewrite S.
    assert (N : startswith json_fence (fence ++ w2 ++ body ++ w3 ++ fence) = false).
    { unfold json_fence. fold json_word.
      cbn [fence app startswith]. rewrite !Ascii.eqb_refl. cbn [andb]. exact J. }
    rewrite N, startswith_app.
    change (skipn 3 (fence ++ w2 ++ body ++ w3 ++ fence))
      with (w2 ++ body ++ w3 ++ fence).
    exact (clean_end w2 body w3 B2 B3 H).
Qed.


Lemma clean_response_round_trip_witness :
  blank newline /\ plain_ends empty_object /\
  clean_response (newline ++ empty_object ++ newline) = empty_object /\
  clean_response
    (newline ++ (json_fence ++ newline ++ empty_object ++ newline ++ fence)
     ++ newline) = empty_object.
Proof.
  assert (B : blank newline) by (constructor; [reflexivity|constructor]).
  assert (P : plain_ends empty_object) by (split; reflexivity).
  split; [exact B|]. split; [exact P|].
  destruct (clean_response_round_trip newline newline newline newline
              empty_object B B B B P) as [H1 [H2 _]].
  split; [exact H1|exact H2].
Defined.

(* ================================================================== *)
(** * Further properties: the database of the orchestrator *)
(* ================================================================== *)

Lemma same_number_refl (a : option string) : same_number a a = true.
Proof. destruct a; cbn; [apply String.eqb_refl|reflexivity]. Qed.

Section DatabaseUpdate.

Variable render : reason -> string.

Lemma update_database_length db num st fa :
  List.length (update_database render db num st fa) = List.length db.
Proof.
  induction db as [|r db IH]; cbn [update_database]; [reflexivity|].
  destruct (same_number (invoice_number r) num); cbn [List.length];
    [reflexivity|rewrite IH; reflexivity].
Qed.

Lemma update_database_no_match db num st fa :
  Forall (other_number num) db ->
  update_database render db num st fa = db.
Proof.
  induction 1 as [|r db Hr Hdb IH]; cbn [update_database]; [reflexivity|].
  unfold other_number in Hr. rewrite Hr, IH. reflexivity.
Qed.

Lemma update_database_at_first pre e post num st fa :
  Forall (other_number num) pre ->
  same_number (invoice_number e) num = true ->
  update_database render (pre ++ e :: post) num st fa
  = pre ++ updated render e st fa :: post.
Proof.
  intros Hpre He.
  induction Hpre as [|r pre Hr Hpre IH]; cbn [app update_database].
  - rewrite He. reflexivity.
  - unfold other_number in Hr. rewrite Hr, IH. reflexivity.
Qed.

End DatabaseUpdate.

(** X14.  [update_database] keeps the number of records; it leaves the
    database as it is when no record carries the invoice number; and
    otherwise it changes the first record that carries the number, and no
    other: that record takes the new status and, when a fraud analysis is
    given, the reasons of its findings as flags. *)
Theorem update_database_first_match render db num st fa :
  List.length (update_database render db num st fa) = List.length db /\
  (Forall (other_number num) db -> update_database render db num st fa = db) /\
  (forall pre e post,
     db = pre ++ e :: post ->
     Forall (other_number num) pre ->
     same_number (invoice_number e) num = true ->
     update_database render db num st fa
     = pre ++ updated render e st fa :: post).
Proof.
  split; [apply update_database_length|].
  split; [apply update_database_no_match|].
  intros pre e post -> Hpre He. apply update_database_at_first; assumption.
Qed.

(* ================================================================== *)
(** * Further properties: the workflow *)
(* ================================================================== *)

Lemma month_days (clock : Clock) (t : Z) (i : nat) :
  within_a_month clock t -> (Z.abs (days (clock i - t)) <=? 30)%Z = true.
Proof.
  intro H. specialize (H i). unfold days, microseconds_per_day in *.
  apply Z.leb_le.
  assert (0 <= (clock i - t) / 86400000000)%Z by (apply Z.div_pos; lia).
  assert ((clock i - t) / 86400000000 < 31)%Z by (apply Z.div_lt_upper_bound; lia).
  lia.
Qed.

Lemma still_clock_within_a_month : within_a_month still_clock sample_now.
Proof.
  intro i. unfold still_clock, microseconds_per_day. lia.
Qed.

Lemma week_days (clock : Clock) (t : Z) (i : nat) :
  within_a_week clock t -> (days (clock i - t) <=? 7)%Z = true.
Proof.
  intro H. specialize (H i). unfold days, microseconds_per_day in *.
  apply Z.leb_le.
  assert ((clock i - t) / 86400000000 < 8)%Z by (apply Z.div_lt_upper_bound; lia).
  lia.
Qed.

Lemma still_clock_within_a_week : within_a_week still_clock sample_now.
Proof.
  intro i. unfold still_clock, microseconds_per_day. lia.
Qed.

Lemma amount_agrees_with_itself (a : Q) :
  Qlt_bool (Qabs (a - a)) (1 # 100) = true.
Proof.
  apply Qlt_bool_iff.
  assert (H : Qabs (a - a) == 0).
  { rewrite (Qplus_opp_r a). reflexivity. }
  rewrite H. reflexivity.
Qed.

Lemma duplicate_step_dated clock supplier amount num acc k e t :
  same_supplier supplier e = true ->
  timestamp e = Some (IsoInstant t) ->
  Qlt_bool (Qabs (amount - invoice_amount e)) (1 # 100) = true ->
  (Z.abs (days (clock (S k) - t)) <=? 30)%Z = true ->
  In (suspicious_duplicate_finding e)
     (fst (duplicate_step clock supplier amount num (acc, k) e)).
Proof.
  intros Hs Ht Ha Hd. unfold duplicate_step. rewrite Hs.
  fold (invoice_amount e). rewrite Ha, Ht.
  cbn [get_or fromisoformat]. rewrite Hd.
  cbn [fst]. apply in_or_app. right. left. reflexivity.
Qed.

Lemma duplicate_loop_dated clock supplier amount num db e t :
  within_a_month clock t ->
  In e db ->
  same_supplier supplier e = true ->
  timestamp e = Some (IsoInstant t) ->
  Qlt_bool (Qabs (amount - invoice_amount e)) (1 # 100) = true ->
  forall acc k,
  In (suspicious_duplicate_finding e)
     (fst (fold_left (duplicate_step clock supplier amount num) db (acc, k))).
Proof.
  intros Hm Hin Hs Ht Ha.
  induction db as [|e' db IH]; intros acc k; [contradiction|].
  cbn [fold_left]. destruct Hin as [->|Hin].
  - assert (H1 := duplicate_step_dated clock supplier amount num acc k e t
                    Hs Ht Ha (month_days clock t (S k) Hm)).
    destruct (duplicate_step clock supplier amount num (acc, k) e) as [acc' k'].
    apply duplicate_loop_keeps. exact H1.
  - destruct (duplicate_step clock supplier amount num (acc, k) e') as [acc' k'].
    apply IH. exact Hin.
Qed.

Lemma load_pending_app (a b : list invoice) :
  load_pending_invoices (a ++ b)
  = load_pending_invoices a ++ load_pending_invoices b.
Proof. apply filter_app. Qed.

Lemma settled_status_cases (ai_analysis : advice) (r : report) :
  (settled_status ai_analysis r = "rejected"%string \/
   settled_status ai_analysis r = "pending_review"%string \/
   (settled_status ai_analysis r = "approved"%string /\ detected_issues r = [])) /\
  String.eqb (settled_status ai_analysis r) "pending" = false.
Proof.
  unfold settled_status.
  destruct (match recommended_action ai_analysis with
            | Some a => String.eqb a "reject"
            | None => false
            end).
  - split; [left; reflexivity|reflexivity].
  - destruct (detected_issues r) as [|i l]; cbn [List.length Nat.ltb Nat.leb].
    + split; [right; right; split; reflexivity|reflexivity].
    + split; [right; left; reflexivity|reflexivity].
Qed.

Section WorkflowRuns.

Variable render : reason -> string.
Variable clock : Clock.

(** The outcome of the workflow, by the outcome of the analysis against
    the database that already holds the record of the invoice. *)
Lemma workflow_outcome db result ai_analysis k :
  process_invoice_full_workflow render clock db result ai_analysis k
  = match analyze_invoice clock (save_to_database db result) (analysis result) k with
    | Returned r =>
        (update_database render (save_to_database db result)
           (invoice_number (analysis result))
           (Some (settled_status ai_analysis r)) (Some r),
         Returned (settled_status ai_analysis r))
    | Raised e => (save_to_database db result, Raised e)
    end.
Proof.
  unfold process_invoice_full_workflow, settled_status.
  destruct (analyze_invoice clock (save_to_database db result) (analysis result) k)
    as [r|e]; [|reflexivity].
  destruct (match recommended_action ai_analysis with
            | Some a => String.eqb a "reject"
            | None => false
            end); reflexivity.
Qed.

Lemma workflow_returns db result ai_analysis k st :
  snd (process_invoice_full_workflow render clock db result ai_analysis k)
  = Returned st ->
  exists r,
    analyze_invoice clock (save_to_database db result) (analysis result) k
    = Returned r /\
    st = settled_status ai_analysis r /\
    fst (process_invoice_full_workflow render clock db result ai_analysis k)
    = update_database render (save_to_database db result)
        (invoice_number (analysis result)) (Some st) (Some r).
Proof.
  rewrite workflow_outcome.
  destruct (analyze_invoice clock (save_to_database db result) (analysis result) k)
    as [r|e]; cbn [fst snd]; [|discriminate].
  intro H. inversion H; subst. exists r. repeat split.
Qed.

(** The record that the workflow has just saved is a suspicious
    duplicate of the invoice it stands for. *)
Lemma own_record_is_reported db result k s :
  supplier_name (analysis result) = Some s ->
  within_a_month clock (verified_at result) ->
  In (suspicious_duplicate_finding (database_record result))
     (rule_findings clock (save_to_database db result) (analysis result) k).
Proof.
  intros Hs Hm. unfold rule_findings. apply in_or_app. left.
  unfold detect_duplicate_invoices.
  apply duplicate_loop_dated with (t := verified_at result).
  - exact Hm.
  - unfold save_to_database. apply in_or_app. right. left. reflexivity.
  - unfold same_supplier, database_record. cbn [supplier_name].
    apply String.eqb_refl.
  - reflexivity.
  - apply amount_agrees_with_itself.
Qed.

Lemma own_record_in_report db result k s r :
  supplier_name (analysis result) = Some s ->
  within_a_month clock (verified_at result) ->
  analyze_invoice clock (save_to_database db result) (analysis result) k
  = Returned r ->
  In (suspicious_duplicate_finding (database_record result)) (detected_issues r).
Proof.
  intros Hs Hm. rewrite analyze_invoice_unfold.
  destruct (calculate_risk_score _ _) as [rk|e]; cbn [bind]; [|discriminate].
  intro H. inversion H; subst. cbn [detected_issues].
  apply (own_record_is_reported db result k s Hs Hm).
Qed.


Lemma workflow_store_new db result ai_analysis k st :
  Forall (other_number (invoice_number (analysis result))) db ->
  snd (process_invoice_full_workflow render clock db result ai_analysis k)
  = Returned st ->
  exists r,
    analyze_invoice clock (save_to_database db result) (analysis result) k
    = Returned r /\
    st = settled_status ai_analysis r /\
    fst (process_invoice_full_workflow render clock db result ai_analysis k)
    = db ++ [updated render (database_record result) (Some st) (Some r)].
Proof.
  intros Hnew Hst.
  destruct (workflow_returns db result ai_analysis k st Hst) as (r & Hr & Hs & Hdb).
  exists r. split; [exact Hr|]. split; [exact Hs|]. rewrite Hdb.
  unfold save_to_database.
  apply update_database_at_first; [exact Hnew|apply same_number_refl].
Qed.

End WorkflowRuns.



(** X16.  The velocity detector counts the invoice itself: the workflow
    saves the record of the invoice before the analysis, so for an invoice
    with a supplier name, analysed less than 8 days after its
    verification, the count of the detector is one more than the count
    over the earlier records, and the detector fires as soon as four
    earlier records of the supplier lie in its window. *)
Theorem workflow_counts_the_invoice_itself clock db result k s :
  supplier_name (analysis result) = Some s ->
  within_a_week clock (verified_at result) ->
  velocity_recent_count clock (save_to_database db result) (analysis result) k
  = S (velocity_recent_count clock db (analysis result) k) /\
  is_detected (fst (detect_velocity_attack clock (save_to_database db result)
                      (analysis result) k))
  = (4 <=? velocity_recent_count clock db (analysis result) k)%nat.
Proof.
  intros Hs Hw.
  assert (H : velocity_recent_count clock (save_to_database db result)
                (analysis result) k
              = S (velocity_recent_count clock db (analysis result) k)).
  { unfold velocity_recent_count, save_to_database.
    rewrite fold_left_app. cbn [fold_left].
    destruct (fold_left (velocity_step clock (candidate_supplier (analysis result)))
                db (0%nat, k)) as [c k'].
    unfold velocity_step.
    assert (E : same_supplier (candidate_supplier (analysis result))
                  (database_record result) = true).
    { unfold same_supplier, database_record. cbn [supplier_name].
      apply String.eqb_refl. }
    rewrite E. cbn [database_record timestamp get_or fromisoformat].
    rewrite (week_days clock (verified_at result) (S k') Hw). reflexivity. }
  split; [exact H|].
  unfold velocity_recent_count in H. unfold detect_velocity_attack.
  fold (candidate_supplier (analysis result)).
  destruct (fold_left (velocity_step clock (candidate_supplier (analysis result)))
              (save_to_database db result) (0%nat, k)) as [c k'].
  cbn [fst] in H. rewrite H. unfold velocity_recent_count.
  destruct (fold_left (velocity_step clock (candidate_supplier (analysis result)))
              db (0%nat, k)) as [c0 k0].
  cbn [fst]. change (5 <=? S c0)%nat with (4 <=? c0)%nat.
  destruct (4 <=? c0)%nat; reflexivity.
Qed.

Lemma workflow_counts_the_invoice_itself_witness :
  supplier_name (analysis acme_verification) = Some "ACME Ltd"%string /\
  within_a_week still_clock (verified_at acme_verification) /\
  velocity_recent_count still_clock (save_to_database four_recent acme_verification)
    (analysis acme_verification) 0 = 5%nat /\
  is_detected (fst (detect_velocity_attack still_clock
                      (save_to_database four_recent acme_verification)
                      (analysis acme_verification) 0)) = true.
Proof.
  split; [reflexivity|]. split; [exact still_clock_within_a_week|].
  destruct (workflow_counts_the_invoice_itself still_clock four_recent
              acme_verification 0 "ACME Ltd" eq_refl still_clock_within_a_week)
    as [H1 H2].
  split; [rewrite H1; reflexivity|rewrite H2; reflexivity].
Defined.

(** X17.  When the workflow returns for an invoice whose number no
    record of the database carries, the database is the former one
    followed by the record of the invoice, which carries the status that
    the workflow returns (rejected on the advice to reject, otherwise
    pending_review with findings and approved without) and, as flags, the
    reasons of the findings of the analysis. *)
Theorem workflow_records_verdict render clock db result ai_analysis k s st :
  supplier_name (analysis result) = Some s ->
  Forall (other_number (invoice_number (analysis result))) db ->
  snd (process_invoice_full_workflow render clock db result ai_analysis k)
  = Returned st ->
  exists r,
    analyze_invoice clock (save_to_database db result) (analysis result) k
    = Returned r /\
    st = settled_status ai_analysis r /\
    fst (process_invoice_full_workflow render clock db result ai_analysis k)
    = db ++ [updated render (database_record result) (Some st) (Some r)].
Proof.
  intros _ Hnew. rewrite workflow_outcome.
  destruct (analyze_invoice clock (save_to_database db result) (analysis result) k)
    as [r|e]; cbn [fst snd]; [|discriminate].
  intro H. inversion H; subst. exists r.
  split; [reflexivity|]. split; [reflexivity|].
  unfold save_to_database.
  apply update_database_at_first; [exact Hnew|apply same_number_refl].
Qed.

Lemma workflow_records_verdict_witness :
  supplier_name (analysis acme_verification) = Some "ACME Ltd"%string /\
  Forall (other_number (invoice_number (analysis acme_verification)))
    [globex_record] /\
  snd (process_invoice_full_workflow reason_title still_clock [globex_record]
         acme_verification no_advice 0)
  = Returned "pending_review"%string /\
  exists r,
    analyze_invoice still_clock (save_to_database [globex_record] acme_verification)
      (analysis acme_verification) 0 = Returned r /\
    "pending_review"%string = settled_status no_advice r /\
    fst (process_invoice_full_workflow reason_title still_clock [globex_record]
           acme_verification no_advice 0)
    = [globex_record]
      ++ [updated reason_title (database_record acme_verification)
            (Some "pending_review"%string) (Some r)].
Proof.
  assert (H : Forall (other_number (invoice_number (analysis acme_verification)))
                [globex_record]).
  { constructor; [reflexivity|constructor]. }
  split; [reflexivity|]. split; [exact H|]. split; [reflexivity|].
  exact (workflow_records_verdict reason_title still_clock [globex_record]
           acme_verification no_advice 0 "ACME Ltd" "pending_review" eq_refl H
           eq_refl).
Defined.

(** X18.  When an earlier record carries the number of the invoice, it is
    the first such record that takes the status and the flags of the new
    analysis; the record that the workflow has just appended stays as it
    was saved, with the status of the verification, pending when it has
    none, and without flags. *)
Theorem workflow_updates_first_holder render clock db result ai_analysis k s st
    pre e post :
  supplier_name (analysis result) = Some s ->
  db = pre ++ e :: post ->
  Forall (other_number (invoice_number (analysis result))) pre ->
  same_number (invoice_number e) (invoice_number (analysis result)) = true ->
  snd (process_invoice_full_workflow render clock db result ai_analysis k)
  = Returned st ->
  exists r,
    analyze_invoice clock (save_to_database db result) (analysis result) k
    = Returned r /\
    fst (process_invoice_full_workflow render clock db result ai_analysis k)
    = pre ++ updated render e (Some st) (Some r) :: post
          ++ [database_record result] /\
    status (database_record result)
    = Some (get_or (result_status result) "pending"%string) /\
    flags (database_record result) = Some [].
Proof.
  intros _ Hdb Hpre He Hst.
  destruct (workflow_returns render clock db result ai_analysis k st Hst)
    as (r & Hr & _ & Hfin).
  exists r. split; [exact Hr|]. split; [|split; reflexivity].
  rewrite Hfin. unfold save_to_database. rewrite Hdb, <- app_assoc.
  cbn [app]. apply update_database_at_first; assumption.
Qed.

Lemma workflow_updates_first_holder_witness :
  supplier_name (analysis acme_verification) = Some "ACME Ltd"%string /\
  Forall (other_number (invoice_number (analysis acme_verification)))
    [globex_record] /\
  same_number (invoice_number earlier_inv_9)
    (invoice_number (analysis acme_verification)) = true /\
  snd (process_invoice_full_workflow reason_title still_clock
         [globex_record; earlier_inv_9] acme_verification no_advice 0)
  = Returned "pending_review"%string /\
  exists r,
    analyze_invoice still_clock
      (save_to_database [globex_record; earlier_inv_9] acme_verification)
      (analysis acme_verification) 0 = Returned r /\
    fst (process_invoice_full_workflow reason_title still_clock
           [globex_record; earlier_inv_9] acme_verification no_advice 0)
    = [globex_record]
      ++ updated reason_title earlier_inv_9 (Some "pending_review"%string) (Some r)
         :: [] ++ [database_record acme_verification] /\
    status (database_record acme_verification)
    = Some (get_or (result_status acme_verification) "pending"%string) /\
    flags (database_record acme_verification) = Some [].
Proof.
  assert (H : Forall (other_number (invoice_number (analysis acme_verification)))
                [globex_record]).
  { constructor; [reflexivity|constructor]. }
  split; [reflexivity|]. split; [exact H|]. split; [reflexivity|].
  split; [reflexivity|].
  exact (workflow_updates_first_holder reason_title still_clock
           [globex_record; earlier_inv_9] acme_verification no_advice 0
           "ACME Ltd" "pending_review" [globex_record] earlier_inv_9 []
           eq_refl eq_refl H eq_refl eq_refl).
Defined.

(** X19.  An invoice that the workflow has processed is never offered to
    the matcher: when the workflow returns for an invoice whose number no
    record of the database carries, the pending invoices of the database
    are those it held before, and the reconciliation of any payments gives
    the outcome it would have given before. *)
Theorem processed_invoice_is_not_pending render clock float_of_str db result
    ai_analysis k s st observed :
  supplier_name (analysis result) = Some s ->
  Forall (other_number (invoice_number (analysis result))) db ->
  snd (process_invoice_full_workflow render clock db result ai_analysis k)
  = Returned st ->
  load_pending_invoices
    (fst (process_invoice_full_workflow render clock db result ai_analysis k))
  = load_pending_invoices db /\
  reconcile_payments float_of_str
    (fst (process_invoice_full_workflow render clock db result ai_analysis k))
    observed
  = reconcile_payments float_of_str db observed.
Proof.
  intros _ Hnew Hst.
  destruct (workflow_store_new render clock db result ai_analysis k st Hnew Hst)
    as (r & _ & Hs & Hfin).
  assert (Hl : load_pending_invoices
                 (fst (process_invoice_full_workflow render clock db result
                         ai_analysis k))
               = load_pending_invoices db).
  { rewrite Hfin, load_pending_app. unfold load_pending_invoices at 2.
    cbn [filter updated status]. rewrite Hs.
    destruct (settled_status_cases ai_analysis r) as [_ Hp]. rewrite Hp.
    apply app_nil_r. }
  split; [exact Hl|]. unfold reconcile_payments. rewrite Hl. reflexivity.
Qed.

Lemma processed_invoice_is_not_pending_witness :
  supplier_name (analysis acme_verification) = Some "ACME Ltd"%string /\
  Forall (other_number (invoice_number (analysis acme_verification)))
    [globex_record] /\
  snd (process_invoice_full_workflow reason_title still_clock [globex_record]
         acme_verification no_advice 0)
  = Returned "pending_review"%string /\
  load_pending_invoices
    (fst (process_invoice_full_workflow reason_title still_clock [globex_record]
            acme_verification no_advice 0))
  = [globex_record] /\
  reconcile_payments no_text_float
    (fst (process_invoice_full_workflow reason_title still_clock [globex_record]
            acme_verification no_advice 0))
    [payment_of 480]
  = Returned [exact_result globex_record (payment_of 480)].
Proof.
  assert (H : Forall (other_number (invoice_number (analysis acme_verification)))
                [globex_record]).
  { constructor; [reflexivity|constructor]. }
  split; [reflexivity|]. split; [exact H|]. split; [reflexivity|].
  destruct (processed_invoice_is_not_pending reason_title still_clock
              no_text_float [globex_record] acme_verification no_advice 0
              "ACME Ltd" "pending_review" [payment_of 480] eq_refl H eq_refl)
    as [H1 H2].
  split; [rewrite H1; reflexivity|rewrite H2; reflexivity].
Defined.

(** X20.  Every record that the workflow writes is flagged: when the
    workflow returns for an invoice with a supplier name whose number no
    record of the database carries, analysed within 31 days of its
    verification, the record of the invoice carries the reason of the
    suspicious duplicate among its flags, and the risk scorer will count
    it as a flagged record of the supplier. *)
Theorem processed_record_is_flagged render clock db result ai_analysis k s st :
  supplier_name (analysis result) = Some s ->
  within_a_month clock (verified_at result) ->
  Forall (other_number (invoice_number (analysis result))) db ->
  snd (process_invoice_full_workflow render clock db result ai_analysis k)
  = Returned st ->
  exists record,
    fst (process_invoice_full_workflow render clock db result ai_analysis k)
    = db ++ [record] /\
    supplier_name record = Some s /\
    status record = Some st /\
    In (render SameSupplierAmount) (get_or (flags record) []) /\
    has_flags record = true.
Proof.
  intros Hs Hm Hnew Hst.
  destruct (workflow_store_new render clock db result ai_analysis k st Hnew Hst)
    as (r & Hr & _ & Hfin).
  assert (Hown := own_record_in_report clock db result k s r Hs Hm Hr).
  assert (Hin : In (render SameSupplierAmount) (reasons_of render r)).
  { unfold reasons_of.
    apply (in_map (fun i => match i_reason i with
                            | Some r => render r
                            | None => "Unknown issue"%string
                            end)) in Hown.
    exact Hown. }
  exists (updated render (database_record result) (Some st) (Some r)).
  split; [exact Hfin|]. split; [exact Hs|]. split; [reflexivity|].
  split; [exact Hin|].
  unfold has_flags. cbn [updated flags get_or].
  destruct (reasons_of render r); [contradiction|reflexivity].
Qed.

Lemma processed_record_is_flagged_witness :
  supplier_name (analysis acme_verification) = Some "ACME Ltd"%string /\
  within_a_month still_clock (verified_at acme_verification) /\
  Forall (other_number (invoice_number (analysis acme_verification)))
    [globex_record] /\
  snd (process_invoice_full_workflow reason_title still_clock [globex_record]
         acme_verification no_advice 0)
  = Returned "pending_review"%string /\
  exists record,
    fst (process_invoice_full_workflow reason_title still_clock [globex_record]
           acme_verification no_advice 0)
    = [globex_record] ++ [record] /\
    supplier_name record = Some "ACME Ltd"%string /\
    status record = Some "pending_review"%string /\
    In (reason_title SameSupplierAmount) (get_or (flags record) []) /\
    has_flags record = true.
Proof.
  assert (H : Forall (other_number (invoice_number (analysis acme_verification)))
                [globex_record]).
  { constructor; [reflexivity|constructor]. }
  split; [reflexivity|]. split; [exact still_clock_within_a_month|].
  split; [exact H|]. split; [reflexivity|].
  exact (processed_record_is_flagged reason_title still_clock [globex_record]
           acme_verification no_advice 0 "ACME Ltd" "pending_review" eq_refl
           still_clock_within_a_month H eq_refl).
Defined.

Lemma failed_advice_is_review response loads :
  advice_fails response loads ->
  recommended_action (analyze_with_ai response loads) = Some "review"%string.
Proof.
  unfold advice_fails, analyze_with_ai.
  destruct response as [text|e]; [|reflexivity].
  destruct (loads (clean_response text)); [contradiction|reflexivity].
Qed.

(** X21.  When the call to the language model raises, or its answer does
    not load, the advice is the fallback, which recommends a review; the
    workflow then holds the invoice: for an invoice with a supplier name,
    analysed within 31 days of its verification, it returns
    pending_review, unless it fails because the risk scorer fails on the
    database that holds the new record. *)
Theorem workflow_without_advice_holds render clock db result response loads k s :
  advice_fails response loads ->
  supplier_name (analysis result) = Some s ->
  within_a_month clock (verified_at result) ->
  match snd (process_invoice_full_workflow render clock db result
               (analyze_with_ai response loads) k) with
  | Returned st => st = "pending_review"%string
  | Raised e => calculate_risk_score (save_to_database db result) s = Raised e
  end.
Proof.
  intros Hf Hs Hm.
  rewrite workflow_outcome, analyze_invoice_unfold, Hs. cbn [get_or].
  destruct (calculate_risk_score (save_to_database db result) s) as [rk|e];
    cbn [bind snd]; [|reflexivity].
  unfold settled_status.
  rewrite (failed_advice_is_review response loads Hf). cbn [String.eqb].
  cbn [detected_issues].
  assert (Hown := own_record_is_reported clock db result k s Hs Hm).
  destruct (rule_findings clock (save_to_database db result) (analysis result) k);
    [contradiction|reflexivity].
Qed.

Lemma workflow_without_advice_holds_witness :
  advice_fails (Returned empty_object) (fun _ => Raised ValueError) /\
  supplier_name (analysis acme_verification) = Some "ACME Ltd"%string /\
  within_a_month still_clock (verified_at acme_verification) /\
  match snd (process_invoice_full_workflow reason_title still_clock [globex_record]
               acme_verification
               (analyze_with_ai (Returned empty_object)
                  (fun _ => Raised ValueError)) 0) with
  | Returned st => st = "pending_review"%string
  | Raised e =>
      calculate_risk_score (save_to_database [globex_record] acme_verification)
        "ACME Ltd" = Raised e
  end.
Proof.
  split; [exact I|]. split; [reflexivity|].
  split; [exact still_clock_within_a_month|].
  exact (workflow_without_advice_holds reason_title still_clock [globex_record]
           acme_verification (Returned empty_object)
           (fun _ => Raised ValueError) 0 "ACME Ltd" I eq_refl
           still_clock_within_a_month).
Defined.
